(** * mangal: configuration loading, assembly and validation

    A shallow embedding of the configuration code of mangal (the file that
    declares [Config], [GetConfig], [ParseConfig] and [ValidateConfig]),
    followed by the properties of it that the specification states.

    Conventions of the embedding.
    - A Go [string] and a Go [[]byte] are Rocq strings (sequences of bytes).
    - A Go [error] is modelled by its message; the [nil] error is [None].
    - A pointer that the code compares with [nil] or dereferences without a
      check is an [option]; a nil dereference is the outcome [Panics].
    - A Go [map] is a [gmap]; the order in which [range] visits its entries
      is chosen by the Go runtime and is a component of [Runtime].
    - Functions and constants that the code uses but that are declared in
      other files or in libraries are the fields of [Runtime] and
      [FileSystem]; a struct declared in another file has the fields this
      file uses and an opaque remainder. *)

From Stdlib Require Import String Ascii ZArith.
From stdpp Require Import base option list gmap strings fin_maps.

Local Open Scope string_scope.

(** ** Byte strings *)

Definition bytes := string.
Definition error := string.

(** The double quote and the line feed, as one-byte strings. *)
Definition dq : string := String "034"%char EmptyString.
Definition nl : string := String "010"%char EmptyString.

(** [strings.Contains s substr]: [substr] occurs in [s] at some offset. *)
Fixpoint strings_Contains (s substr : string) : bool :=
  String.prefix substr s ||
  match s with
  | EmptyString => false
  | String _ s' => strings_Contains s' substr
  end.

(** Text of a Go raw string literal, given line by line: every line is
    followed by a line feed. *)
Definition raw_lines (ls : list string) : string :=
  foldr (fun l acc => l +:+ nl +:+ acc) "" ls.

(** ** Generic helpers of the repository *)

(** Modelled from the spec: [Contains] is declared outside this file; it is
    the membership test of a slice, by exact equality of the elements. *)
Fixpoint Contains {T : Type} `{EqDecision T} (slice : list T) (elem : T) : bool :=
  match slice with
  | [] => false
  | x :: rest => if decide (x = elem) then true else Contains rest elem
  end.

(** Modelled from the spec: [IfElse] is declared outside this file; it
    selects its second argument when the condition holds, else its third. *)
Definition IfElse {T : Type} (cond : bool) (a b : T) : T :=
  if cond then a else b.

(** ** Data model *)

(** FormatType is type of format used for output. *)
Definition FormatType := string.

Definition PDF : FormatType := "pdf".
Definition CBZ : FormatType := "cbz".
Definition Zip : FormatType := "zip".
Definition Plain : FormatType := "plain".
Definition Epub : FormatType := "epub".

(** Modelled from the spec: [AvailableFormats] is declared outside this
    file; it is the fixed enumerated set of output formats, pdf, cbz, zip,
    plain and epub. *)
Definition AvailableFormats : list FormatType := [PDF; CBZ; Zip; Plain; Epub].

Module UI.
Record t := mk {
    Fullscreen : bool;
    Prompt : string;
    Title : string;
    Placeholder : string;
    Mark : string;
    ChapterNameTemplate : string
  }.

Definition zero : t := mk false "" "" "" "" "".

Definition set_ChapterNameTemplate (v : string) (u : t) : t :=
    mk (Fullscreen u) (Prompt u) (Title u) (Placeholder u) (Mark u) v.
End UI.

(** Modelled from the spec: the [Source] struct is declared outside this
    file. A source has a name, a unique string identifier, and an ordered
    mapping of setting names to string, bool or int values. *)
Module Source.
Inductive value :=
  | VString (s : string)
  | VBool (b : bool)
  | VInt (z : Z).

Record t := mk {
    Name : string;
    Settings : list (string * value)
  }.

Definition set_Name (v : string) (s : t) : t := mk v (Settings s).

#[global] Instance value_eq_dec : EqDecision value.
Proof. solve_decision. Defined.
#[global] Instance eq_dec : EqDecision t.
Proof. solve_decision. Defined.
End Source.

(** The collector behind [Scraper.FilesCollector]. The code of this file
    writes its [CacheDir] and nothing else; [state] stands for the rest. *)
Module Collector.
Record t {O : Type} := mk {
    CacheDir : string;
    state : O
  }.
Arguments t : clear implicits.
Arguments mk {O}.

Definition set_CacheDir {O} (v : string) (c : t O) : t O := mk v (state c).
End Collector.

(** The [Scraper] struct is declared outside this file. [Source] is a
    pointer that [ValidateConfig] compares with [nil]; [FilesCollector] is
    dereferenced by [ParseConfig] right after [MakeSourceScraper] has
    returned it; [state] stands for the fields this file never mentions. *)
Module Scraper.
Record t {O : Type} := mk {
    Source : option Source.t;
    FilesCollector : Collector.t O;
    state : O
  }.
Arguments t : clear implicits.
Arguments mk {O}.

Definition set_FilesCollector {O} (v : Collector.t O) (s : t O) : t O :=
    mk (Source s) v (state s).
End Scraper.

(** The [AnilistClient] struct is declared outside this file; this file
    reads its [ID] and [Secret]. *)
Module AnilistClient.
Record t {O : Type} := mk {
    ID : string;
    Secret : string;
    state : O
  }.
Arguments t : clear implicits.
Arguments mk {O}.
End AnilistClient.

(** The anonymous struct of the field [Config.Anilist]. *)
Module ConfigAnilist.
Record t {O : Type} := mk {
    Client : option (AnilistClient.t O);
    Enabled : bool;
    MarkDownloaded : bool
  }.
Arguments t : clear implicits.
Arguments mk {O}.

Definition zero {O} : t O := mk None false false.
End ConfigAnilist.

(** [Scrapers] is a slice of pointers to scrapers; its elements are the
    pointers [MakeSourceScraper] returned, which are taken to be non-nil. *)
Module Config.
Record t {O : Type} := mk {
    Scrapers : list (Scraper.t O);
    Format : FormatType;
    UI : UI.t;
    Anilist : ConfigAnilist.t O;
    UseCustomReader : bool;
    CustomReader : string;
    Path : string;
    CacheImages : bool;
    ChapterNameTemplate : string
  }.
Arguments t : clear implicits.
Arguments mk {O}.

Definition set_Anilist {O} (v : ConfigAnilist.t O) (c : t O) : t O :=
    mk (Scrapers c) (Format c) (UI c) v (UseCustomReader c) (CustomReader c)
       (Path c) (CacheImages c) (ChapterNameTemplate c).
End Config.

(** The anonymous struct of the field [tempConfig.Anilist]. *)
Module tempAnilist.
Record t := mk {
    Enabled : bool;
    ID : string;
    Secret : string;
    MarkDownloaded : bool
  }.

Definition zero : t := mk false "" "" false.
End tempAnilist.

(** tempConfig is a temporary config that will be used to store parsed
    config (the struct declared inside [ParseConfig]). *)
Module tempConfig.
Record t := mk {
    Use : list string;
    Format : string;
    UI : UI.t;
    UseCustomReader : bool;
    CustomReader : string;
    Path : string;
    CacheImages : bool;
    Sources : gmap string Source.t;
    ChapterNameTemplate : string;
    Anilist : tempAnilist.t
  }.

(** The zero value: what an empty document is decoded to. *)
Definition zero : t :=
  mk [] "" UI.zero false "" "" false ∅ "" tempAnilist.zero.

End tempConfig.

(** ** Results of a call *)

(** A call either returns a value or panics (nil pointer dereference). *)
Inductive outcome (A : Type) :=
| Returns (a : A)
| Panics.
Arguments Returns {A}.
Arguments Panics {A}.

(** ** The default document *)

(** DefaultConfigBytes is default config in TOML format. *)
Definition DefaultConfigBytes : bytes := raw_lines [
  "# Which sources to use. You can use several sources, it won't affect perfomance";
  "use = ['manganelo']";
  "";
  "# Type " +:+ dq +:+ "mangal formats" +:+ dq +:+ " to show more information about formats";
  "format = " +:+ dq +:+ "pdf" +:+ dq;
  "";
  "# If false, then OS default reader will be used";
  "use_custom_reader = false";
  "custom_reader = " +:+ dq +:+ "zathura" +:+ dq;
  "";
  "# Custom download path, can be either relative (to the current directory) or absolute";
  "download_path = '.'";
  "";
  "# How chapters should be named when downloaded";
  "# Use %d to specify chapter number and %s to specify chapter title";
  "# If you want to pad chapter number with zeros for natural sorting (e.g. 0001, 0123) use %0d instead of %d";
  "chapter_name_template = " +:+ dq +:+ "[%0d] %s" +:+ dq;
  "";
  "# Add images to cache";
  "# If set to true mangal could crash when trying to redownload something quickly";
  "# Usually happens on slow machines";
  "cache_images = false";
  "";
  "[anilist]";
  "# Enable Anilist integration (BETA)";
  "# See https://github.com/metafates/mangal/wiki/Anilist-Integration for more information";
  "enabled = false";
  "";
  "# Anilist client ID";
  "id = " +:+ dq +:+ dq;
  "";
  "# Anilist client secret";
  "secret = " +:+ dq +:+ dq;
  "";
  "# Will mark downloaded chapters as read on Anilist";
  "mark_downloaded = false";
  "";
  "[ui]";
  "# How to display chapters in TUI mode";
  "# Use %d to specify chapter number and %s to specify chapter title";
  "chapter_name_template = " +:+ dq +:+ "[%d] %s" +:+ dq;
  "";
  "# Fullscreen mode ";
  "fullscreen = true";
  "";
  "# Input prompt symbol";
  "prompt = " +:+ dq +:+ ">" +:+ dq;
  "";
  "# Input placeholder";
  "placeholder = " +:+ dq +:+ "What shall we look for?" +:+ dq;
  "";
  "# Selected chapter mark";
  "mark = " +:+ dq +:+ "▼" +:+ dq;
  "";
  "# Search window title";
  "title = " +:+ dq +:+ "Mangal" +:+ dq;
  "";
  "[sources]";
  "[sources.manganelo]";
  "# Base url";
  "base = 'https://m.manganelo.com'";
  "";
  "# Chapters Base url";
  "chapters_base = 'https://chap.manganelo.com/'";
  "";
  "# Search endpoint. Put %s where the query should be";
  "search = 'https://m.manganelo.com/search/story/%s'";
  "";
  "# Selector of entry anchor (<a></a>) on search page";
  "manga_anchor = '.search-story-item a.item-title'";
  "";
  "# Selector of entry title on search page";
  "manga_title = '.search-story-item a.item-title'";
  "";
  "# Manga chapters anchors selector";
  "chapter_anchor = 'li.a-h a.chapter-name'";
  "";
  "# Manga chapters titles selector";
  "chapter_title = 'li.a-h a.chapter-name'";
  "";
  "# Reader page images selector";
  "reader_page = '.container-chapter-reader img'";
  "";
  "# Random delay between requests";
  "random_delay_ms = 500 # ms";
  "";
  "# Are chapters listed in reversed order on that source?";
  "# reversed order -> from newest chapter to oldest";
  "reversed_chapters_order = true";
  "";
  "# With what character should the whitespace in query be replaced?";
  "whitespace_escape = " +:+ dq +:+ "_" +:+ dq
].

(** What the default document says, field by field: the value of
    [tempConfig] that a TOML decoder yields for [DefaultConfigBytes]. *)
Definition DefaultSource : Source.t :=
  Source.mk "" [
    ("base", Source.VString "https://m.manganelo.com");
    ("chapters_base", Source.VString "https://chap.manganelo.com/");
    ("search", Source.VString "https://m.manganelo.com/search/story/%s");
    ("manga_anchor", Source.VString ".search-story-item a.item-title");
    ("manga_title", Source.VString ".search-story-item a.item-title");
    ("chapter_anchor", Source.VString "li.a-h a.chapter-name");
    ("chapter_title", Source.VString "li.a-h a.chapter-name");
    ("reader_page", Source.VString ".container-chapter-reader img");
    ("random_delay_ms", Source.VInt 500);
    ("reversed_chapters_order", Source.VBool true);
    ("whitespace_escape", Source.VString "_")
  ].

Definition DefaultDocument : tempConfig.t :=
  tempConfig.mk
    ["manganelo"]
    "pdf"
    (UI.mk true ">" "Mangal" "What shall we look for?" "▼" "[%d] %s")
    false
    "zathura"
    "."
    false
    {[ "manganelo" := DefaultSource ]}
    "[%0d] %s"
    (tempAnilist.mk false "" "" false).

(** ** Collaborators *)

(** What this file takes from the rest of the repository, from the Go
    standard library and from third-party packages.
    - [Mangal]: the application name constant.
    - [strings_ToLower], [filepath_Join]: of the Go standard library.
    - [accentStyle_Render]: the terminal style applied to a piece of text.
    - [toml_Unmarshal]: the TOML decoder, into a zero [tempConfig].
    - [range_Sources]: the order in which a [range] statement visits the
      entries of a map; Go leaves it unspecified, it is only known to visit
      every entry once ([range_Sources_perm]).
    - [MakeSourceScraper]: builds the scraper of a source, from the value
      the source variable holds at the call.
    - [NewAnilistClient]: builds the Anilist client; returns a pointer and
      an error.
    - [ValidateSource]: the self-check of a source. *)
Record Runtime {O : Type} := {
  Mangal : string;
  strings_ToLower : string -> string;
  filepath_Join : list string -> string;
  accentStyle_Render : string -> string;
  toml_Unmarshal : bytes -> error + tempConfig.t;
  range_Sources : gmap string Source.t -> list (string * Source.t);
  range_Sources_perm : forall m, range_Sources m ≡ₚ map_to_list m;
  MakeSourceScraper : Source.t -> Scraper.t O;
  NewAnilistClient : string -> string -> option (AnilistClient.t O) * option error;
  ValidateSource : Source.t -> option error
}.
Arguments Runtime : clear implicits.

(** The host: the per-user configuration directory and the files. *)
Record FileSystem := {
  os_UserConfigDir : string * option error;
  Afero_Exists : string -> bool * option error;
  Afero_ReadFile : string -> bytes * option error
}.

(** ** The code *)

Section Code.
Context {O : Type}.
Variable rt : Runtime O.

(** GetConfigPath returns path to config file. *)
Definition GetConfigPath (fs : FileSystem) : string * option error :=
  let '(configDir, err) := os_UserConfigDir fs in
  match err with
  | Some err => ("", Some err)
  | None =>
      (filepath_Join rt [configDir; strings_ToLower rt (Mangal rt); "config.toml"],
       None)
  end.

(** The scraper that one turn of the loop of [ParseConfig] creates for the
    section [sourceName] of the document. It is what [MakeSourceScraper]
    returns for the value the loop variable [source] holds at the call,
    the name set; the pointer to that variable is not followed later. *)
Definition createScraper (CacheImages : bool) (sourceName : string)
    (source : Source.t) : Scraper.t O :=
  let source := Source.set_Name sourceName source in
  let scraper := MakeSourceScraper rt source in
  if negb CacheImages
  then Scraper.set_FilesCollector
         (Collector.set_CacheDir "" (Scraper.FilesCollector scraper)) scraper
  else scraper.

(** One turn of the loop of [ParseConfig] over the declared sources:
    [scrapers] is [conf.Scrapers] so far. *)
Definition addSource (Use : list string) (CacheImages : bool)
    (scrapers : list (Scraper.t O)) (entry : string * Source.t)
    : list (Scraper.t O) :=
  let '(sourceName, source) := entry in
  (* If source is not listed in Use then skip it *)
  if negb (Contains Use sourceName) then scrapers
  else
    (* Create scraper *)
    let scraper := createScraper CacheImages sourceName source in
    (scrapers ++ [scraper])%list.

(** Convert sources listed in tempConfig to Scrapers. *)
Definition makeScrapers (tempConf : tempConfig.t) (CacheImages : bool)
    : list (Scraper.t O) :=
  foldl (addSource (tempConfig.Use tempConf) CacheImages) []
        (range_Sources rt (tempConfig.Sources tempConf)).

(** The part of [ParseConfig] after the decoder has succeeded. *)
Definition assemble (tempConf : tempConfig.t)
    : option (Config.t O) * option error :=
  let CacheImages := tempConfig.CacheImages tempConf in
  let Scrapers := makeScrapers tempConf CacheImages in
  let tempUI :=
    if String.eqb (UI.ChapterNameTemplate (tempConfig.UI tempConf)) ""
    then UI.set_ChapterNameTemplate "[%d] %s" (tempConfig.UI tempConf)
    else tempConfig.UI tempConf in
  (* Default format is pdf *)
  let Format :=
    IfElse (String.eqb (tempConfig.Format tempConf) "") PDF
           (tempConfig.Format tempConf) in
  let ChapterNameTemplate :=
    let template := tempConfig.ChapterNameTemplate tempConf in
    if negb (String.eqb template "") then template else "[%0d] %s" in
  let conf (anilist : ConfigAnilist.t O) : Config.t O :=
    Config.mk Scrapers Format tempUI anilist
              (tempConfig.UseCustomReader tempConf)
              (tempConfig.CustomReader tempConf)
              (tempConfig.Path tempConf)
              CacheImages
              ChapterNameTemplate in
  if tempAnilist.Enabled (tempConfig.Anilist tempConf) then
    let id := tempAnilist.ID (tempConfig.Anilist tempConf) in
    let secret := tempAnilist.Secret (tempConfig.Anilist tempConf) in
    let '(client, err) := NewAnilistClient rt id secret in
    match err with
    | Some err => (None, Some err)
    | None =>
        (Some (conf (ConfigAnilist.mk client true
                       (tempAnilist.MarkDownloaded (tempConfig.Anilist tempConf)))),
         None)
    end
  else (Some (conf ConfigAnilist.zero), None).

(** ParseConfig parses config from given string. *)
Definition ParseConfig (configString : bytes)
    : option (Config.t O) * option error :=
  match toml_Unmarshal rt configString with
  | inl err => (None, Some err)
  | inr tempConf => assemble tempConf
  end.

(** DefaultConfig makes default config. *)
Definition DefaultConfig : option (Config.t O) :=
  let '(conf, _) := ParseConfig DefaultConfigBytes in
  conf.

(** GetConfig returns user config or default config if it doesn't exist.
    If path is empty string then default config will be returned. *)
Definition GetConfig (fs : FileSystem) (path : string) : option (Config.t O) :=
  (* If path is empty string then default config will be used *)
  let '(configPath, err) :=
    if String.eqb path "" then GetConfigPath fs else (path, None) in
  match err with
  | Some _ => DefaultConfig
  | None =>
      (* If config file doesn't exist then default config will be used *)
      let '(configExists, err) := Afero_Exists fs configPath in
      if bool_decide (err ≠ None) || negb configExists then DefaultConfig
      else
        (* Read config file *)
        let '(contents, err) := Afero_ReadFile fs configPath in
        match err with
        | Some _ => DefaultConfig
        | None =>
            (* Parse config *)
            let '(config, err) := ParseConfig contents in
            match err with
            | Some _ => DefaultConfig
            | None => config
            end
        end
  end.

(** The closure [validateChapterNameTemplate] of [ValidateConfig]: chapter
    name template should contain %d or %s placeholder. *)
Definition validateChapterNameTemplate (template : string) : option error :=
  if negb (strings_Contains template "%d") &&
     negb (strings_Contains template "%s") &&
     negb (strings_Contains template "%0d")
  then Some "chapter name template should contain at least one %d, %0d or %s placeholder"
  else None.

(** The message of the format check, as [fmt.Sprintf] builds it. *)
Definition unknownFormat (format : FormatType) : error :=
  "unknown format '" +:+ format +:+ "'" +:+ nl +:+
  "type " +:+ accentStyle_Render rt (strings_ToLower rt (Mangal rt) +:+ " formats")
  +:+ " to show available formats".

(** The last loop of [ValidateConfig]: check if scrapers are valid. *)
Fixpoint validateScrapers (scrapers : list (Scraper.t O)) : option error :=
  match scrapers with
  | [] => None
  | scraper :: rest =>
      match Scraper.Source scraper with
      | None => Some "internal error: scraper source is nil"
      | Some source =>
          match ValidateSource rt source with
          | Some err => Some err
          | None => validateScrapers rest
          end
      end
  end.

(** Sequencing of the checks: [check e ;; k] returns the error of [e] when
    there is one and goes on with [k] otherwise. *)
Definition check {A : Type} (e : option A) (k : outcome (option A))
    : outcome (option A) :=
  match e with
  | Some err => Returns (Some err)
  | None => k
  end.

(** Dereference of a pointer: panics on [nil]. *)
Definition deref {A B : Type} (p : option A) (k : A -> outcome B) : outcome B :=
  match p with
  | Some x => k x
  | None => Panics
  end.

(** The Anilist step of [ValidateConfig]; [k] is the rest of the function.
    [config.Anilist.Client.ID] dereferences the client pointer. *)
Definition checkAnilist (anilist : ConfigAnilist.t O)
    (k : outcome (option error)) : outcome (option error) :=
  if ConfigAnilist.Enabled anilist then
    deref (ConfigAnilist.Client anilist) (fun client =>
      if String.eqb (AnilistClient.ID client) "" ||
         String.eqb (AnilistClient.Secret client) ""
      then Returns (Some "anilist is enabled but id or secret is not set")
      else k)
  else k.

(** ValidateConfig checks if config is valid and returns error if it is
    not. [config] is the struct the argument points to. *)
Definition ValidateConfig (config : Config.t O) : outcome (option error) :=
  (* check if any source is used *)
  check (if Nat.eqb (length (Config.Scrapers config)) 0
         then Some "no manga sources listed" else None) (
  (* check if chapter name template is valid *)
  check (validateChapterNameTemplate (Config.ChapterNameTemplate config)) (
  check (validateChapterNameTemplate (UI.ChapterNameTemplate (Config.UI config))) (
  (* check if anilist is properly configured *)
  checkAnilist (Config.Anilist config) (
  (* check if custom reader is properly configured *)
  check (if Config.UseCustomReader config &&
            String.eqb (Config.CustomReader config) ""
         then Some "use_custom_reader is set to true but reader isn't specified"
         else None) (
  (* Check if format is valid *)
  check (if negb (Contains AvailableFormats (Config.Format config))
         then Some (unknownFormat (Config.Format config)) else None) (
  (* Check if scrapers are valid *)
  check (validateScrapers (Config.Scrapers config)) (
  Returns None))))))).

End Code.


(** ** A concrete runtime

    One instance of the collaborators, on which the code can be run: the
    opaque state is [unit], the decoder knows three documents, [range]
    visits a map in the order of [map_to_list], a scraper keeps its source
    and caches under [/cache/], the Anilist client refuses an empty id, and
    a source is valid when it has a base URL. *)
Module Demo.

Definition lower (c : ascii) : ascii :=
  let n := nat_of_ascii c in
  if (65 <=? n)%nat && (n <=? 90)%nat then ascii_of_nat (n + 32) else c.

Fixpoint ToLower (s : string) : string :=
  match s with
  | EmptyString => EmptyString
  | String c s' => String (lower c) (ToLower s')
  end.

Definition Join (elem : list string) : string := String.concat "/" elem.

(** A document that enables [b] before [a] and declares both sections. *)
Definition text_ba : bytes := raw_lines [
  "use = ['b', 'a']";
  "[sources.a]";
  "base = 'https://a.example'";
  "[sources.b]";
  "base = 'https://b.example'"
].

Definition source_a : Source.t :=
  Source.mk "" [("base", Source.VString "https://a.example")].
Definition source_b : Source.t :=
  Source.mk "" [("base", Source.VString "https://b.example")].

Definition doc_ba : tempConfig.t :=
  tempConfig.mk ["b"; "a"] "" UI.zero false "" "" false
    {[ "a" := source_a; "b" := source_b ]} "" tempAnilist.zero.

Definition Unmarshal (data : bytes) : error + tempConfig.t :=
  if String.eqb data DefaultConfigBytes then inr DefaultDocument
  else if String.eqb data "" then inr tempConfig.zero
  else if String.eqb data text_ba then inr doc_ba
  else inl "toml: document not known to this decoder".

Definition MakeScraper (source : Source.t) : Scraper.t unit :=
  Scraper.mk (Some source)
    (Collector.mk ("/cache/" +:+ Source.Name source) tt) tt.

Definition NewClient (id secret : string)
    : option (AnilistClient.t unit) * option error :=
  if String.eqb id "" then (None, Some "anilist: client id is empty")
  else (Some (AnilistClient.mk id secret tt), None).

Definition Validate (source : Source.t) : option error :=
  if Contains (Source.Settings source).*1 "base" then None
  else Some ("source " +:+ Source.Name source +:+ ": base is not set").

Definition rt : Runtime unit :=
  {| Mangal := "Mangal";
     strings_ToLower := ToLower;
     filepath_Join := Join;
     accentStyle_Render := fun s => s;
     toml_Unmarshal := Unmarshal;
     range_Sources := map_to_list;
     range_Sources_perm := fun m => reflexivity (map_to_list m);
     MakeSourceScraper := MakeScraper;
     NewAnilistClient := NewClient;
     ValidateSource := Validate |}.

(** The same runtime, except that [range] visits a map the other way
    round. *)
Definition rt_rev : Runtime unit :=
  {| Mangal := "Mangal";
     strings_ToLower := ToLower;
     filepath_Join := Join;
     accentStyle_Render := fun s => s;
     toml_Unmarshal := Unmarshal;
     range_Sources := fun m => reverse (map_to_list m);
     range_Sources_perm := fun m => reverse_Permutation (map_to_list m);
     MakeSourceScraper := MakeScraper;
     NewAnilistClient := NewClient;
     ValidateSource := Validate |}.

(** A host with no configuration directory and one with a broken file. *)
Definition fs_none : FileSystem :=
  {| os_UserConfigDir := ("", Some "neither $XDG_CONFIG_HOME nor $HOME are defined");
     Afero_Exists := fun _ => (false, None);
     Afero_ReadFile := fun _ => ("", Some "file does not exist") |}.

Definition fs_files : FileSystem :=
  {| os_UserConfigDir := ("/home/u/.config", None);
     Afero_Exists := fun p =>
       (String.eqb p "/home/u/.config/mangal/config.toml" ||
        String.eqb p "broken.toml" || String.eqb p "ba.toml", None);
     Afero_ReadFile := fun p =>
       if String.eqb p "/home/u/.config/mangal/config.toml" then ("", None)
       else if String.eqb p "broken.toml" then ("use = [", None)
       else if String.eqb p "ba.toml" then (text_ba, None)
       else ("", Some "file does not exist") |}.

End Demo.

(** ** Vocabulary of the properties *)

(** The file [GetConfig] looks at: the given path, or the default location
    when the path is empty. *)
Definition located {O : Type} (rt : Runtime O) (fs : FileSystem)
    (path configPath : string) : Prop :=
  (if String.eqb path "" then GetConfigPath rt fs else (path, None)) =
  (configPath, None).

(** The four ways in which the load chain fails: the default location
    cannot be determined, the file is not there (or its existence cannot be
    determined), the file cannot be read, or its contents do not parse. *)
Inductive load_failure {O : Type} (rt : Runtime O) (fs : FileSystem)
    (path : string) : Prop :=
| LookupFails (e : error) :
    path = "" ->
    snd (GetConfigPath rt fs) = Some e ->
    load_failure rt fs path
| NotExists (configPath : string) (exists_ : bool) (err : option error) :
    located rt fs path configPath ->
    Afero_Exists fs configPath = (exists_, err) ->
    err <> None \/ exists_ = false ->
    load_failure rt fs path
| Unreadable (configPath : string) (contents : bytes) (e : error) :
    located rt fs path configPath ->
    Afero_Exists fs configPath = (true, None) ->
    Afero_ReadFile fs configPath = (contents, Some e) ->
    load_failure rt fs path
| Unparsable (configPath : string) (contents : bytes)
    (config : option (Config.t O)) (e : error) :
    located rt fs path configPath ->
    Afero_Exists fs configPath = (true, None) ->
    Afero_ReadFile fs configPath = (contents, None) ->
    ParseConfig rt contents = (config, Some e) ->
    load_failure rt fs path.

(** The file was found, read and parsed into [config]. *)
Definition loaded {O : Type} (rt : Runtime O) (fs : FileSystem)
    (path : string) (config : option (Config.t O)) : Prop :=
  exists configPath contents,
    located rt fs path configPath /\
    Afero_Exists fs configPath = (true, None) /\
    Afero_ReadFile fs configPath = (contents, None) /\
    ParseConfig rt contents = (config, None).

(** The resolution as the specification words it: the enabled names are
    taken in the order of the list, each is looked up among the declared
    sections, a name with no section is skipped. *)
Definition resolveInUseOrder {O : Type} (rt : Runtime O)
    (tempConf : tempConfig.t) : list (Scraper.t O) :=
  omap (fun name =>
          createScraper rt (tempConfig.CacheImages tempConf) name
            <$> tempConfig.Sources tempConf !! name)
       (tempConfig.Use tempConf).

(** The name each scraper of a sequence carries in its source. *)
Definition scraperNames {O : Type} (scrapers : list (Scraper.t O))
    : list (option string) :=
  map (fun scraper => Source.Name <$> Scraper.Source scraper) scrapers.

(** The template [template] has the token [token] somewhere. *)
Definition hasToken (token template : string) : Prop :=
  exists pre post, template = pre +:+ token +:+ post.

Definition templateError : error :=
  "chapter name template should contain at least one %d, %0d or %s placeholder".

(** The checks of [ValidateConfig] that come before the Anilist check. *)
Definition passesEarlierChecks {O : Type} (config : Config.t O) : Prop :=
  Config.Scrapers config <> [] /\
  validateChapterNameTemplate (Config.ChapterNameTemplate config) = None /\
  validateChapterNameTemplate (UI.ChapterNameTemplate (Config.UI config)) = None.

Definition anilistError : error :=
  "anilist is enabled but id or secret is not set".

(** The first error of a sequence of check results, if there is one. *)
Definition firstError (checks : list (option error)) : option error :=
  foldr (fun c rest => match c with Some e => Some e | None => rest end)
        None checks.

(** What is wrong with one scraper: it has no source, or its source does
    not pass its self-check. *)
Definition scraperViolation {O : Type} (rt : Runtime O) (scraper : Scraper.t O)
    : option error :=
  match Scraper.Source scraper with
  | None => Some "internal error: scraper source is nil"
  | Some source => ValidateSource rt source
  end.

(** The checks of the validator, one result per check, in the order in
    which the specification lists them; the last one is spread over the
    scrapers, in their order. *)
Definition orderedChecks {O : Type} (rt : Runtime O) (config : Config.t O)
    : list (option error) :=
  [ if decide (Config.Scrapers config = [])
    then Some "no manga sources listed" else None;
    validateChapterNameTemplate (Config.ChapterNameTemplate config);
    validateChapterNameTemplate (UI.ChapterNameTemplate (Config.UI config));
    match ConfigAnilist.Client (Config.Anilist config) with
    | Some client =>
        if ConfigAnilist.Enabled (Config.Anilist config) &&
           bool_decide (AnilistClient.ID client = "" \/
                        AnilistClient.Secret client = "")
        then Some anilistError else None
    | None => None
    end;
    if Config.UseCustomReader config &&
       bool_decide (Config.CustomReader config = "")
    then Some "use_custom_reader is set to true but reader isn't specified"
    else None;
    if decide (Config.Format config ∈ AvailableFormats) then None
    else Some (unknownFormat rt (Config.Format config)) ]
  ++ map (scraperViolation rt) (Config.Scrapers config).

(** A config whose only scraper has no source; everything else is as in
    the default config. *)
Definition sourcelessConfig : Config.t unit :=
  Config.mk [Scraper.mk None (Collector.mk "" tt) tt] PDF
    (UI.mk true ">" "Mangal" "What shall we look for?" "▼" "[%d] %s")
    ConfigAnilist.zero false "zathura" "." false "[%0d] %s".

(** A config with Anilist enabled and a client, in which a custom reader is
    requested but not given and the format is not a known one. *)
Definition flawedConfig : Config.t unit :=
  Config.mk [Demo.MakeScraper (Source.set_Name "manganelo" DefaultSource)]
    "djvu"
    (UI.mk true ">" "Mangal" "What shall we look for?" "▼" "[%d] %s")
    (ConfigAnilist.mk (Some (AnilistClient.mk "id" "secret" tt)) true false)
    true "" "." false "[%0d] %s".

(** ** Facts about the helpers *)

Example strings_Contains_ex1 : strings_Contains "[%0d] %s" "%s" = true.
Proof. reflexivity. Qed.
Example strings_Contains_ex2 : strings_Contains "[%0d]" "%d" = false.
Proof. reflexivity. Qed.
Example Contains_ex : Contains ["a"; "b"] "b" = true.
Proof. reflexivity. Qed.

Lemma append_nil_l (s : string) : "" +:+ s = s.
Proof. reflexivity. Qed.

Lemma append_cons_l (c : ascii) (s t : string) :
  String c s +:+ t = String c (s +:+ t).
Proof. reflexivity. Qed.

Lemma prefix_spec (p s : string) :
  String.prefix p s = true <-> exists post, s = p +:+ post.
Proof.
  revert s. induction p as [|c p IH]; intros s; destruct s as [|d s]; simpl.
  - split; [intros _; by exists "" | done].
  - split; [intros _; by exists (String d s) | done].
  - split; [done | by intros [post ?]].
  - setoid_rewrite append_cons_l.
    destruct (ascii_dec c d) as [->|Hne].
    + rewrite IH. split; intros [post Hpost]; exists post; congruence.
    + split; [done | intros [post Hpost]; congruence].
Qed.

Lemma strings_Contains_nil (substr : string) :
  strings_Contains "" substr = String.prefix substr "".
Proof. simpl. apply orb_false_r. Qed.

Lemma strings_Contains_cons (c : ascii) (s substr : string) :
  strings_Contains (String c s) substr =
  String.prefix substr (String c s) || strings_Contains s substr.
Proof. reflexivity. Qed.

(** [strings_Contains] finds exactly the occurrences of [substr]. *)
Lemma strings_Contains_spec (s substr : string) :
  strings_Contains s substr = true <->
  exists pre post, s = pre +:+ substr +:+ post.
Proof.
  induction s as [|c s IH].
  - rewrite strings_Contains_nil, prefix_spec. split.
    + intros [post ->]. by exists "", post.
    + intros (pre & post & H). destruct pre; [by exists post | done].
  - rewrite strings_Contains_cons, orb_true_iff, prefix_spec, IH. split.
    + intros [[post ->] | (pre & post & ->)].
      * by exists "", post.
      * by exists (String c pre), post.
    + intros (pre & post & H). destruct pre as [|d pre].
      * left. by exists post.
      * right. exists pre, post. rewrite append_cons_l in H. congruence.
Qed.

Lemma Contains_spec {T : Type} `{EqDecision T} (slice : list T) (elem : T) :
  Contains slice elem = true <-> elem ∈ slice.
Proof.
  induction slice as [|x rest IH]; simpl.
  - split; [done | by intros ?%elem_of_nil].
  - rewrite elem_of_cons. case_decide as Hx.
    + split; [intros _; by left | done].
    + rewrite IH. split; [by right | intros [->|?]; done].
Qed.

Lemma Contains_false {T : Type} `{EqDecision T} (slice : list T) (elem : T) :
  Contains slice elem = false <-> elem ∉ slice.
Proof.
  rewrite <- Contains_spec. destruct (Contains slice elem); naive_solver.
Qed.

Section Facts.
Context {O : Type}.
Variable rt : Runtime O.

(** The loop over the sources keeps what was appended before and appends,
    in the order of the visit, one scraper per visited entry whose name
    is listed in [Use]. *)
Lemma foldl_addSource (Use : list string) (CacheImages : bool)
    (entries : list (string * Source.t)) (scrapers : list (Scraper.t O)) :
  foldl (addSource rt Use CacheImages) scrapers entries =
  (scrapers ++
   map (fun e => createScraper rt CacheImages e.1 e.2)
       (filter (fun e => e.1 ∈ Use) entries))%list.
Proof.
  revert scrapers. induction entries as [|[n src] entries IH]; intros scrapers.
  - simpl. by rewrite app_nil_r.
  - simpl foldl. rewrite IH, filter_cons. unfold addSource. simpl.
    destruct (Contains Use n) eqn:Hc; simpl.
    + apply Contains_spec in Hc. rewrite decide_True by done.
      simpl. by rewrite <- app_assoc.
    + apply Contains_false in Hc. by rewrite decide_False.
Qed.

Lemma makeScrapers_spec (tempConf : tempConfig.t) (CacheImages : bool) :
  makeScrapers rt tempConf CacheImages =
  map (fun e => createScraper rt CacheImages e.1 e.2)
      (filter (fun e => e.1 ∈ tempConfig.Use tempConf)
              (range_Sources rt (tempConfig.Sources tempConf))).
Proof. unfold makeScrapers. by rewrite foldl_addSource. Qed.

(** The entries of a map, as [range] visits them: every entry once. *)
Lemma range_Sources_elem (m : gmap string Source.t) (n : string) (src : Source.t) :
  (n, src) ∈ range_Sources rt m <-> m !! n = Some src.
Proof. rewrite (range_Sources_perm rt m). apply elem_of_map_to_list. Qed.

Lemma range_Sources_NoDup (m : gmap string Source.t) :
  NoDup (range_Sources rt m).*1.
Proof. rewrite (range_Sources_perm rt m). apply NoDup_fst_map_to_list. Qed.

Lemma ParseConfig_decoded (configString : bytes) (tempConf : tempConfig.t) :
  toml_Unmarshal rt configString = inr tempConf ->
  ParseConfig rt configString = assemble rt tempConf.
Proof. intros H. unfold ParseConfig. by rewrite H. Qed.

(** The fields of a config that [assemble] returns. *)
Lemma assemble_fields (tempConf : tempConfig.t) (conf : Config.t O) (err : option error) :
  assemble rt tempConf = (Some conf, err) ->
  err = None /\
  Config.Scrapers conf = makeScrapers rt tempConf (tempConfig.CacheImages tempConf) /\
  Config.Format conf =
    (if String.eqb (tempConfig.Format tempConf) "" then PDF
     else tempConfig.Format tempConf) /\
  Config.UI conf =
    (if String.eqb (UI.ChapterNameTemplate (tempConfig.UI tempConf)) ""
     then UI.set_ChapterNameTemplate "[%d] %s" (tempConfig.UI tempConf)
     else tempConfig.UI tempConf) /\
  Config.UseCustomReader conf = tempConfig.UseCustomReader tempConf /\
  Config.CustomReader conf = tempConfig.CustomReader tempConf /\
  Config.Path conf = tempConfig.Path tempConf /\
  Config.CacheImages conf = tempConfig.CacheImages tempConf /\
  Config.ChapterNameTemplate conf =
    (if String.eqb (tempConfig.ChapterNameTemplate tempConf) "" then "[%0d] %s"
     else tempConfig.ChapterNameTemplate tempConf).
Proof.
  unfold assemble, IfElse.
  destruct (tempAnilist.Enabled _).
  - destruct (NewAnilistClient _ _ _) as [client [e|]]; [done|].
    intros [= <- <-]. simpl.
    by destruct (String.eqb (tempConfig.ChapterNameTemplate tempConf) "").
  - intros [= <- <-]. simpl.
    by destruct (String.eqb (tempConfig.ChapterNameTemplate tempConf) "").
Qed.

End Facts.

(** ** Loading: [GetConfig] *)

Lemma ParseConfig_result {O : Type} (rt : Runtime O) (configString : bytes) :
  (exists conf, ParseConfig rt configString = (Some conf, None)) \/
  (exists e, ParseConfig rt configString = (None, Some e)).
Proof.
  unfold ParseConfig. destruct (toml_Unmarshal rt configString) as [e|tempConf].
  - right. by exists e.
  - unfold assemble. destruct (tempAnilist.Enabled _).
    + destruct (NewAnilistClient _ _ _) as [client [e|]].
      * right. by exists e.
      * left. by eexists.
    + left. by eexists.
Qed.

Lemma DefaultConfig_Some {O : Type} (rt : Runtime O) :
  toml_Unmarshal rt DefaultConfigBytes = inr DefaultDocument ->
  exists conf, DefaultConfig rt = Some conf.
Proof.
  intros Hdefault. unfold DefaultConfig.
  rewrite (ParseConfig_decoded rt _ _ Hdefault).
  unfold assemble. by eexists.
Qed.

(** C1. Provided the TOML decoder reads the default document as what it
    says, [GetConfig] returns a non-nil config for every host and every
    path; whenever the load chain fails (no default location, no file, no
    read, no parse) the result is [DefaultConfig()]; and a file that loads
    is returned exactly as [ParseConfig] assembled it, without any
    validation step in between. *)
Theorem GetConfig_total_with_fallback {O : Type} (rt : Runtime O)
    (fs : FileSystem) (path : string)
    (Hdefault : toml_Unmarshal rt DefaultConfigBytes = inr DefaultDocument) :
  (exists config, GetConfig rt fs path = Some config) /\
  (exists config, DefaultConfig rt = Some config) /\
  (load_failure rt fs path -> GetConfig rt fs path = DefaultConfig rt) /\
  (forall config, loaded rt fs path config -> GetConfig rt fs path = config).
Proof.
  pose proof (DefaultConfig_Some rt Hdefault) as Hdef.
  split; [|split; [done|split]].
  - unfold GetConfig.
    destruct (if String.eqb path "" then GetConfigPath rt fs else (path, None))
      as [configPath [e|]]; [done|].
    destruct (Afero_Exists fs configPath) as [b err].
    destruct (bool_decide (err ≠ None) || negb b); [done|].
    destruct (Afero_ReadFile fs configPath) as [contents [e|]]; [done|].
    destruct (ParseConfig_result rt contents) as [[conf ->]|[e ->]]; [|done].
    by exists conf.
  - intros Hfail. unfold GetConfig.
    destruct Hfail as [e -> He|p b err Hp Hex Hno|p c e Hp Hex Hrd|p c r e Hp Hex Hrd Hparse].
    + simpl. destruct (GetConfigPath rt fs) as [p err]. simpl in He. by subst.
    + unfold located in Hp. rewrite Hp, Hex.
      destruct Hno as [Hne| ->].
      * by rewrite bool_decide_true.
      * by rewrite orb_true_r.
    + unfold located in Hp. by rewrite Hp, Hex, Hrd.
    + unfold located in Hp. by rewrite Hp, Hex, Hrd, Hparse.
  - intros config (p & c & Hp & Hex & Hrd & Hparse).
    unfold GetConfig. unfold located in Hp. by rewrite Hp, Hex, Hrd, Hparse.
Qed.

(** On the concrete runtime: a file with a syntax error falls back to the
    default config, and the empty file at the default location is returned
    as parsed although it does not pass [ValidateConfig]. *)
Lemma GetConfig_total_with_fallback_witness :
  GetConfig Demo.rt Demo.fs_files "broken.toml" = DefaultConfig Demo.rt /\
  GetConfig Demo.rt Demo.fs_none "" = DefaultConfig Demo.rt /\
  (exists config,
     GetConfig Demo.rt Demo.fs_files "" = Some config /\
     ValidateConfig Demo.rt config = Returns (Some "no manga sources listed")).
Proof.
  assert (Hd : toml_Unmarshal Demo.rt DefaultConfigBytes = inr DefaultDocument)
    by (vm_compute; reflexivity).
  split; [|split].
  - destruct (GetConfig_total_with_fallback Demo.rt Demo.fs_files "broken.toml" Hd)
      as (_ & _ & Hfail & _).
    apply Hfail.
    apply (Unparsable _ _ _ "broken.toml" "use = [" None
                      "toml: document not known to this decoder");
      vm_compute; reflexivity.
  - destruct (GetConfig_total_with_fallback Demo.rt Demo.fs_none "" Hd)
      as (_ & _ & Hfail & _).
    apply Hfail.
    apply (LookupFails _ _ _ "neither $XDG_CONFIG_HOME nor $HOME are defined");
      reflexivity.
  - destruct (GetConfig_total_with_fallback Demo.rt Demo.fs_files "" Hd)
      as ([config Hconfig] & _ & _ & Hload).
    exists config. split; [done|].
    rewrite (Hload (fst (ParseConfig Demo.rt ""))) in Hconfig.
    + injection Hconfig as <-. vm_compute. reflexivity.
    + exists "/home/u/.config/mangal/config.toml", "".
      repeat split; vm_compute; reflexivity.
Defined.

(** ** Assembly: defaults *)

(** C2 as stated fails. The empty document leaves the download path, the
    custom reader and the UI prompt at their zero value, and [ParseConfig]
    keeps them empty, whereas the default config has [.], [zathura] and
    [>] there. *)
Lemma ParseConfig_zero_fields_counterexample :
  exists conf dflt : Config.t unit,
    toml_Unmarshal Demo.rt "" = inr tempConfig.zero /\
    ParseConfig Demo.rt "" = (Some conf, None) /\
    DefaultConfig Demo.rt = Some dflt /\
    (Config.Path conf = "" /\ Config.Path dflt = ".") /\
    (Config.CustomReader conf = "" /\ Config.CustomReader dflt = "zathura") /\
    (UI.Prompt (Config.UI conf) = "" /\ UI.Prompt (Config.UI dflt) = ">").
Proof.
  eexists. eexists.
  split; [reflexivity|]. split; [vm_compute; reflexivity|].
  split; [vm_compute; reflexivity|]. by vm_compute.
Qed.

(** C2, amended. [ParseConfig] substitutes a default for exactly three
    fields of the document when they are empty: the output format, the UI
    chapter-name template and the global chapter-name template, and the
    substituted values are those of the default document. Every other
    field, the image-cache flag included, is copied as the document has it,
    zero value or not. *)
Theorem ParseConfig_defaults_three_fields {O : Type} (rt : Runtime O)
    (configString : bytes) (tempConf : tempConfig.t) (conf : Config.t O)
    (Hdoc : toml_Unmarshal rt configString = inr tempConf)
    (Hconf : ParseConfig rt configString = (Some conf, None)) :
  (Config.Format conf =
     if String.eqb (tempConfig.Format tempConf) ""
     then tempConfig.Format DefaultDocument else tempConfig.Format tempConf) /\
  (UI.ChapterNameTemplate (Config.UI conf) =
     if String.eqb (UI.ChapterNameTemplate (tempConfig.UI tempConf)) ""
     then UI.ChapterNameTemplate (tempConfig.UI DefaultDocument)
     else UI.ChapterNameTemplate (tempConfig.UI tempConf)) /\
  (Config.ChapterNameTemplate conf =
     if String.eqb (tempConfig.ChapterNameTemplate tempConf) ""
     then tempConfig.ChapterNameTemplate DefaultDocument
     else tempConfig.ChapterNameTemplate tempConf) /\
  (tempConfig.Format DefaultDocument = "pdf" /\
   UI.ChapterNameTemplate (tempConfig.UI DefaultDocument) = "[%d] %s" /\
   tempConfig.ChapterNameTemplate DefaultDocument = "[%0d] %s") /\
  Config.CacheImages conf = tempConfig.CacheImages tempConf /\
  Config.Path conf = tempConfig.Path tempConf /\
  Config.CustomReader conf = tempConfig.CustomReader tempConf /\
  Config.UseCustomReader conf = tempConfig.UseCustomReader tempConf /\
  UI.Fullscreen (Config.UI conf) = UI.Fullscreen (tempConfig.UI tempConf) /\
  UI.Prompt (Config.UI conf) = UI.Prompt (tempConfig.UI tempConf) /\
  UI.Title (Config.UI conf) = UI.Title (tempConfig.UI tempConf) /\
  UI.Placeholder (Config.UI conf) = UI.Placeholder (tempConfig.UI tempConf) /\
  UI.Mark (Config.UI conf) = UI.Mark (tempConfig.UI tempConf).
Proof.
  rewrite (ParseConfig_decoded rt _ _ Hdoc) in Hconf.
  apply assemble_fields in Hconf
    as (_ & _ & HF & HU & HR & HC & HP & HI & HT).
  rewrite HF, HU, HR, HC, HP, HI, HT.
  repeat split; try reflexivity;
    destruct (String.eqb (UI.ChapterNameTemplate (tempConfig.UI tempConf)) "");
    reflexivity.
Qed.

(** On the concrete runtime, for the empty document: the format and the
    two templates are the defaults, the download path stays empty. *)
Lemma ParseConfig_defaults_three_fields_witness :
  exists conf : Config.t unit,
    ParseConfig Demo.rt "" = (Some conf, None) /\
    Config.Format conf = "pdf" /\
    UI.ChapterNameTemplate (Config.UI conf) = "[%d] %s" /\
    Config.ChapterNameTemplate conf = "[%0d] %s" /\
    Config.Path conf = "".
Proof.
  assert (Hdoc : toml_Unmarshal Demo.rt "" = inr tempConfig.zero)
    by reflexivity.
  destruct (ParseConfig_result Demo.rt "") as [[conf Hconf]|[e He]].
  - exists conf. split; [done|].
    destruct (ParseConfig_defaults_three_fields Demo.rt "" _ conf Hdoc Hconf)
      as (HF & HU & HT & _ & _ & HP & _).
    by rewrite HF, HU, HT, HP.
  - by vm_compute in He.
Defined.

(** ** Assembly: the scrapers *)




(** The same document on the runtime whose [range] goes the other way
    round yields [b, a]: the order is that of the visit. *)
Example ParseConfig_range_order_reversed :
  exists conf : Config.t unit,
    ParseConfig Demo.rt_rev Demo.text_ba = (Some conf, None) /\
    scraperNames (Config.Scrapers conf) = [Some "b"; Some "a"].
Proof. eexists. split; vm_compute; reflexivity. Qed.

(** When no enabled name is listed twice, the scrapers of the loop are
    those of the resolution in the order of the enabled names, up to the
    order of the sequence. *)
Lemma makeScrapers_Permutation_use_order {O : Type} (rt : Runtime O)
    (tempConf : tempConfig.t) :
  NoDup (tempConfig.Use tempConf) ->
  makeScrapers rt tempConf (tempConfig.CacheImages tempConf) ≡ₚ
  resolveInUseOrder rt tempConf.
Proof.
  intros Huse. rewrite makeScrapers_spec. unfold resolveInUseOrder.
  set (m := tempConfig.Sources tempConf).
  set (f := fun e : string * Source.t =>
              createScraper rt (tempConfig.CacheImages tempConf) e.1 e.2).
  rewrite (list_omap_ext _ (fun name => f <$> (pair name <$> m !! name))
             _ (tempConfig.Use tempConf)).
  2: { apply Forall2_same_length_lookup_2; [done|].
       intros i x y Hx Hy. rewrite Hx in Hy. injection Hy as <-.
       by destruct (m !! x). }
  rewrite <- list_fmap_omap. apply fmap_Permutation.
  apply NoDup_Permutation.
  - apply NoDup_filter. eapply NoDup_fmap_1, range_Sources_NoDup.
  - induction Huse as [|name use Hname Huse IH]; [constructor|].
    simpl. destruct (m !! name) as [source|] eqn:Hm; simpl; [|exact IH].
    constructor; [|exact IH].
    intros (name' & Hin & Hsome)%list_elem_of_omap.
    destruct (m !! name'); [|done]. simpl in Hsome.
    injection Hsome as -> _. done.
  - intros [name source].
    rewrite list_elem_of_filter, range_Sources_elem, list_elem_of_omap.
    simpl. split.
    + intros [Hin Hm]. exists name. split; [done|]. fold m. by rewrite Hm.
    + intros (name' & Hin & Hsome).
      destruct (m !! name') as [source'|] eqn:Hm; [|done].
      simpl in Hsome. injection Hsome as -> ->. done.
Qed.





(** ** Assembly: errors *)


(** ** Validation *)

(** C7. The template check accepts a template exactly when it has one of
    the tokens [%d], [%0d], [%s], and rejects every other template with the
    error that says what a chapter name template should contain. It
    rejects [chapter one] and accepts [[%0d] %s], [%d] and [%s].
    [ValidateConfig], once it has found a scraper, applies it to the global
    template and then, the global one accepted, to the UI template, and
    returns the error of the first that is rejected, whatever the other
    template is. *)
Theorem validateChapterNameTemplate_accepts_placeholders :
  (forall template,
     validateChapterNameTemplate template = None <->
     hasToken "%d" template \/ hasToken "%0d" template \/ hasToken "%s" template) /\
  (forall template,
     validateChapterNameTemplate template <> None ->
     validateChapterNameTemplate template = Some templateError) /\
  validateChapterNameTemplate "chapter one" = Some templateError /\
  validateChapterNameTemplate "[%0d] %s" = None /\
  validateChapterNameTemplate "%d" = None /\
  validateChapterNameTemplate "%s" = None /\
  (forall (O : Type) (rt : Runtime O) (config : Config.t O),
     Config.Scrapers config <> [] ->
     (validateChapterNameTemplate (Config.ChapterNameTemplate config) <> None ->
      ValidateConfig rt config = Returns (Some templateError)) /\
     (validateChapterNameTemplate (Config.ChapterNameTemplate config) = None ->
      validateChapterNameTemplate (UI.ChapterNameTemplate (Config.UI config)) <> None ->
      ValidateConfig rt config = Returns (Some templateError))).
Proof.
  assert (Hchar : forall template,
            validateChapterNameTemplate template = None <->
            hasToken "%d" template \/ hasToken "%0d" template \/
            hasToken "%s" template).
  { intros template. unfold validateChapterNameTemplate, hasToken.
    rewrite <- !strings_Contains_spec.
    destruct (strings_Contains template "%d"),
             (strings_Contains template "%s"),
             (strings_Contains template "%0d"); simpl;
      intuition congruence. }
  assert (Herr : forall template,
            validateChapterNameTemplate template <> None ->
            validateChapterNameTemplate template = Some templateError).
  { intros template. unfold validateChapterNameTemplate.
    by destruct (_ && _). }
  split; [exact Hchar|]. split; [exact Herr|].
  do 4 (split; [reflexivity|]).
  intros O rt config Hscrapers. unfold ValidateConfig.
  destruct (Config.Scrapers config) as [|scraper rest]; [done|]. simpl.
  split.
  - intros Hglobal. by rewrite (Herr _ Hglobal).
  - intros Hglobal Hui. by rewrite Hglobal, (Herr _ Hui).
Qed.

(** C8. For a config that passes the checks before the Anilist check:
    when Anilist is enabled and the id or the secret of the client is
    empty, [ValidateConfig] returns the Anilist error; when Anilist is not
    enabled, the client has no part in the result, which is the same for
    any client, its id and secret empty or not, and for no client. *)
Theorem ValidateConfig_anilist_gating {O : Type} (rt : Runtime O)
    (config : Config.t O) (Hearlier : passesEarlierChecks config) :
  (forall client,
     ConfigAnilist.Enabled (Config.Anilist config) = true ->
     ConfigAnilist.Client (Config.Anilist config) = Some client ->
     AnilistClient.ID client = "" \/ AnilistClient.Secret client = "" ->
     ValidateConfig rt config = Returns (Some anilistError)) /\
  (ConfigAnilist.Enabled (Config.Anilist config) = false ->
   (forall client' mark',
      ValidateConfig rt
        (Config.set_Anilist (ConfigAnilist.mk client' false mark') config) =
      ValidateConfig rt config) /\
   (forall err,
      ValidateConfig rt config = Returns (Some err) ->
      err = "use_custom_reader is set to true but reader isn't specified" \/
      err = unknownFormat rt (Config.Format config) \/
      validateScrapers rt (Config.Scrapers config) = Some err) /\
   ValidateConfig rt config <> Panics).
Proof.
  destruct Hearlier as (Hscrapers & Hglobal & Hui).
  unfold ValidateConfig.
  destruct (Config.Scrapers config) as [|scraper rest] eqn:Hs; [done|].
  simpl length. cbn [Nat.eqb check]. rewrite Hglobal, Hui. cbn [check].
  split.
  - intros client Hen Hcl Hempty. unfold checkAnilist. rewrite Hen, Hcl.
    cbn [deref].
    destruct Hempty as [-> | ->]; [done|]. by rewrite orb_true_r.
  - intros Hen. split; [|split].
    + intros client' mark'. simpl. rewrite Hs. simpl length.
      cbn [Nat.eqb check]. rewrite Hglobal, Hui. cbn [check].
      unfold checkAnilist. simpl. by rewrite Hen.
    + intros err. unfold checkAnilist. rewrite Hen.
      destruct (_ && _); [intros [= <-]; by left|]. cbn [check].
      destruct (negb _); [intros [= <-]; right; by left|]. cbn [check].
      destruct (validateScrapers rt (scraper :: rest)) as [e|];
        [intros [= <-]; right; by right | done].
    + unfold checkAnilist. rewrite Hen.
      destruct (_ && _); [done|]. cbn [check].
      destruct (negb _); [done|]. cbn [check].
      by destruct (validateScrapers rt (scraper :: rest)).
Qed.

(** On the concrete runtime, for the default config: with Anilist enabled
    and a client whose id and secret are empty it is rejected with the
    Anilist error; as it is, not enabled and with no id and no secret
    anywhere, it passes. *)
Lemma ValidateConfig_anilist_gating_witness :
  exists dflt : Config.t unit,
    DefaultConfig Demo.rt = Some dflt /\
    ValidateConfig Demo.rt
      (Config.set_Anilist
         (ConfigAnilist.mk (Some (AnilistClient.mk "" "" tt)) true false) dflt) =
      Returns (Some anilistError) /\
    ValidateConfig Demo.rt dflt = Returns None.
Proof.
  assert (Hd : exists dflt, DefaultConfig Demo.rt = Some dflt)
    by (eexists; vm_compute; reflexivity).
  destruct Hd as [dflt Hd]. exists dflt. split; [done|].
  vm_compute in Hd. injection Hd as <-. split.
  - match goal with |- ValidateConfig _ ?c = _ => set (config := c) end.
    assert (Hearlier : passesEarlierChecks config)
      by (repeat split; by vm_compute).
    exact (proj1 (ValidateConfig_anilist_gating Demo.rt config Hearlier)
             (AnilistClient.mk "" "" tt) eq_refl eq_refl (or_introl eq_refl)).
  - vm_compute. reflexivity.
Defined.

(** C4 as stated fails. [sourcelessConfig] has a scraper, both templates
    have a placeholder, Anilist is off, no custom reader is requested, the
    format is pdf, and there is no source whose self-check could fail; yet
    [ValidateConfig] returns an error, one of its own making. *)
Lemma ValidateConfig_seven_checks_counterexample :
  Config.Scrapers sourcelessConfig <> [] /\
  validateChapterNameTemplate (Config.ChapterNameTemplate sourcelessConfig) = None /\
  validateChapterNameTemplate
    (UI.ChapterNameTemplate (Config.UI sourcelessConfig)) = None /\
  ConfigAnilist.Enabled (Config.Anilist sourcelessConfig) = false /\
  Config.UseCustomReader sourcelessConfig = false /\
  Config.Format sourcelessConfig ∈ AvailableFormats /\
  (forall scraper source,
     scraper ∈ Config.Scrapers sourcelessConfig ->
     Scraper.Source scraper = Some source ->
     ValidateSource Demo.rt source = None) /\
  ValidateConfig Demo.rt sourcelessConfig =
    Returns (Some "internal error: scraper source is nil").
Proof.
  split; [done|]. do 4 (split; [reflexivity|]).
  split; [apply Contains_spec; reflexivity|].
  split; [|reflexivity].
  intros scraper source [->|[]%elem_of_nil]%elem_of_cons. done.
Qed.

Lemma validateScrapers_firstError {O : Type} (rt : Runtime O)
    (scrapers : list (Scraper.t O)) :
  validateScrapers rt scrapers = firstError (map (scraperViolation rt) scrapers).
Proof.
  induction scrapers as [|scraper rest IH]; [done|].
  simpl. unfold scraperViolation at 1.
  destruct (Scraper.Source scraper) as [source|]; [|done].
  destruct (ValidateSource rt source); [done | exact IH].
Qed.

(** C4, amended. For a config whose Anilist client is there when Anilist
    is enabled, [ValidateConfig] returns the first violation, if any, of
    these checks in this order: 1. there is a scraper; 2. the global
    template has a placeholder; 3. the UI template has one; 4. Anilist
    enabled: id and secret of the client non-empty; 5. custom reader
    requested: reader non-empty; 6. the format is one of pdf, cbz, zip,
    plain, epub, else the error names the value and points at the formats
    command; 7. for each scraper in turn: it has a source, else an internal
    error of the validator, and the source passes its self-check, whose
    error is returned as it is. It returns no error when none fails. *)
Theorem ValidateConfig_first_violation {O : Type} (rt : Runtime O)
    (config : Config.t O)
    (Hclient : ConfigAnilist.Enabled (Config.Anilist config) = true ->
               ConfigAnilist.Client (Config.Anilist config) <> None) :
  ValidateConfig rt config = Returns (firstError (orderedChecks rt config)).
Proof.
  unfold ValidateConfig, orderedChecks.
  destruct (Config.Scrapers config) as [|scraper rest] eqn:Hs.
  { by rewrite decide_True. }
  rewrite decide_False by done. simpl length. cbn [Nat.eqb check app foldr firstError].
  destruct (validateChapterNameTemplate (Config.ChapterNameTemplate config));
    [done|]. cbn [check].
  destruct (validateChapterNameTemplate (UI.ChapterNameTemplate (Config.UI config)));
    [done|]. cbn [check].
  unfold checkAnilist.
  assert (Hrest :
    check (if Config.UseCustomReader config &&
              String.eqb (Config.CustomReader config) ""
           then Some "use_custom_reader is set to true but reader isn't specified"
           else None)
      (check (if negb (Contains AvailableFormats (Config.Format config))
              then Some (unknownFormat rt (Config.Format config)) else None)
         (check (validateScrapers rt (scraper :: rest)) (Returns None))) =
    Returns
      (match
         (if Config.UseCustomReader config &&
             bool_decide (Config.CustomReader config = "")
          then Some "use_custom_reader is set to true but reader isn't specified"
          else None)
       with
       | Some e => Some e
       | None =>
           match
             (if decide (Config.Format config ∈ AvailableFormats) then None
              else Some (unknownFormat rt (Config.Format config)))
           with
           | Some e => Some e
           | None => firstError (map (scraperViolation rt) (scraper :: rest))
           end
       end)).
  { rewrite <- validateScrapers_firstError.
    replace (bool_decide (Config.CustomReader config = ""))
      with (String.eqb (Config.CustomReader config) "")
      by (destruct (String.eqb_spec (Config.CustomReader config) "");
          [by rewrite bool_decide_true | by rewrite bool_decide_false]).
    destruct (_ && _); [done|]. cbn [check].
    destruct (Contains AvailableFormats (Config.Format config)) eqn:Hf.
    - apply Contains_spec in Hf. rewrite decide_True by done. cbn [negb check].
      by destruct (validateScrapers rt (scraper :: rest)).
    - apply Contains_false in Hf. by rewrite decide_False. }
  destruct (ConfigAnilist.Enabled (Config.Anilist config)) eqn:Hen.
  - destruct (ConfigAnilist.Client (Config.Anilist config)) as [client|];
      [|by destruct Hclient].
    cbn [deref andb].
    destruct (String.eqb_spec (AnilistClient.ID client) "") as [Hid|Hid].
    { rewrite bool_decide_true by (by left). done. }
    destruct (String.eqb_spec (AnilistClient.Secret client) "") as [Hsec|Hsec].
    { rewrite bool_decide_true by (by right). done. }
    rewrite bool_decide_false by (by intros [?|?]). cbn [orb]. exact Hrest.
  - destruct (ConfigAnilist.Client (Config.Anilist config)); exact Hrest.
Qed.

(** On the concrete runtime: [flawedConfig] has Anilist enabled with a
    client, and violates checks 5 and 6; the violation of check 5 is the
    one returned. *)
Lemma ValidateConfig_first_violation_witness :
  ValidateConfig Demo.rt flawedConfig =
    Returns (Some "use_custom_reader is set to true but reader isn't specified") /\
  orderedChecks Demo.rt flawedConfig =
    [None; None; None; None;
     Some "use_custom_reader is set to true but reader isn't specified";
     Some (unknownFormat Demo.rt "djvu");
     None].
Proof.
  split.
  - rewrite (ValidateConfig_first_violation Demo.rt flawedConfig).
    + vm_compute. reflexivity.
    + intros _. discriminate.
  - vm_compute. reflexivity.
Defined.

(** Format gating on the concrete runtime: cbz passes, djvu is rejected
    with an error that names it. *)
Example ValidateConfig_format_gating :
  exists dflt : Config.t unit,
    DefaultConfig Demo.rt = Some dflt /\
    ValidateConfig Demo.rt
      (Config.mk (Config.Scrapers dflt) "cbz" (Config.UI dflt)
         (Config.Anilist dflt) false "zathura" "." false "[%0d] %s") =
      Returns None /\
    ValidateConfig Demo.rt
      (Config.mk (Config.Scrapers dflt) "djvu" (Config.UI dflt)
         (Config.Anilist dflt) false "zathura" "." false "[%0d] %s") =
      Returns (Some (unknownFormat Demo.rt "djvu")) /\
    hasToken "djvu" (unknownFormat Demo.rt "djvu").
Proof.
  eexists. split; [vm_compute; reflexivity|].
  do 2 (split; [vm_compute; reflexivity|]).
  apply strings_Contains_spec. vm_compute. reflexivity.
Qed.


(** C5 does not hold of the code. [ValidateConfig] is not total: the default config
    passes validation; the same config with the Anilist flag set and no
    client constructed makes [ValidateConfig] panic on the nil client
    instead of returning an error. *)
Theorem ValidateConfig_panics_without_client :
  exists dflt : Config.t unit,
    DefaultConfig Demo.rt = Some dflt /\
    ValidateConfig Demo.rt dflt = Returns None /\
    ValidateConfig Demo.rt
      (Config.set_Anilist (ConfigAnilist.mk None true false) dflt) = Panics.
Proof.
  eexists. split; [vm_compute; reflexivity|].
  split; vm_compute; reflexivity.
Qed.

(** * Further properties of the configuration code *)

(** A runtime that decodes one more document, which enables Anilist. *)
Module Sample.

Definition text_anilist : bytes := raw_lines [
  "use = ['manganelo']";
  "[anilist]";
  "enabled = true";
  "id = '42'";
  "secret = 's3cret'";
  "mark_downloaded = true";
  "[sources.manganelo]";
  "base = 'https://m.manganelo.com'"
].

Definition doc_anilist : tempConfig.t :=
  tempConfig.mk ["manganelo"] "" UI.zero false "" "" false
    {[ "manganelo" :=
         Source.mk "" [("base", Source.VString "https://m.manganelo.com")] ]}
    "" (tempAnilist.mk true "42" "s3cret" true).

(** A document that marks chapters as downloaded but leaves Anilist off. *)
Definition text_marked : bytes := raw_lines [
  "[anilist]";
  "mark_downloaded = true"
].

Definition doc_marked : tempConfig.t :=
  tempConfig.mk [] "" UI.zero false "" "" false ∅ ""
    (tempAnilist.mk false "" "" true).

Definition Unmarshal (data : bytes) : error + tempConfig.t :=
  if String.eqb data text_anilist then inr doc_anilist
  else if String.eqb data text_marked then inr doc_marked
  else Demo.Unmarshal data.

Definition rt : Runtime unit :=
  {| Mangal := "Mangal";
     strings_ToLower := Demo.ToLower;
     filepath_Join := Demo.Join;
     accentStyle_Render := fun s => s;
     toml_Unmarshal := Unmarshal;
     range_Sources := map_to_list;
     range_Sources_perm := fun m => reflexivity (map_to_list m);
     MakeSourceScraper := Demo.MakeScraper;
     NewAnilistClient := Demo.NewClient;
     ValidateSource := Demo.Validate |}.

End Sample.

Lemma ValidateConfig_Panics_inv {O : Type} (rt : Runtime O) (config : Config.t O) :
  ValidateConfig rt config = Panics ->
  passesEarlierChecks config /\
  ConfigAnilist.Enabled (Config.Anilist config) = true /\
  ConfigAnilist.Client (Config.Anilist config) = None.
Proof.
  unfold ValidateConfig, passesEarlierChecks.
  destruct (Config.Scrapers config) as [|scraper rest]; [done|].
  simpl length. cbn [Nat.eqb check].
  destruct (validateChapterNameTemplate (Config.ChapterNameTemplate config));
    [done|]. cbn [check].
  destruct (validateChapterNameTemplate (UI.ChapterNameTemplate (Config.UI config)));
    [done|]. cbn [check].
  assert (Hrest : forall k1 k2 k3,
            check k1 (check k2 (check k3 (Returns None))) <>
            (Panics : outcome (option error))).
  { intros [e1|] [e2|] [e3|]; done. }
  unfold checkAnilist.
  destruct (ConfigAnilist.Enabled (Config.Anilist config)).
  - destruct (ConfigAnilist.Client (Config.Anilist config)) as [client|];
      [|done].
    cbn [deref]. destruct (_ || _); [done|].
    intros H. by apply Hrest in H.
  - intros H. by apply Hrest in H.
Qed.


(** X3. What [ParseConfig] leaves in the Anilist fields of the config. The
    enabled flag is the one of the document. Enabled, the client is the
    pointer [NewAnilistClient] returned for the id and the secret of the
    document, and the mark-downloaded flag is copied. Not enabled, the
    mark-downloaded flag of the document is dropped: the config has it
    false whatever the document says. *)
Theorem ParseConfig_anilist_fields {O : Type} (rt : Runtime O)
    (configString : bytes) (tempConf : tempConfig.t) (conf : Config.t O)
    (Hdoc : toml_Unmarshal rt configString = inr tempConf)
    (Hconf : ParseConfig rt configString = (Some conf, None)) :
  let doc := tempConfig.Anilist tempConf in
  ConfigAnilist.Enabled (Config.Anilist conf) = tempAnilist.Enabled doc /\
  (tempAnilist.Enabled doc = true ->
   NewAnilistClient rt (tempAnilist.ID doc) (tempAnilist.Secret doc) =
     (ConfigAnilist.Client (Config.Anilist conf), None) /\
   ConfigAnilist.MarkDownloaded (Config.Anilist conf) =
     tempAnilist.MarkDownloaded doc) /\
  (tempAnilist.Enabled doc = false ->
   ConfigAnilist.MarkDownloaded (Config.Anilist conf) = false).
Proof.
  rewrite (ParseConfig_decoded rt _ _ Hdoc) in Hconf. revert Hconf.
  unfold assemble. simpl.
  destruct (tempAnilist.Enabled (tempConfig.Anilist tempConf)).
  - destruct (NewAnilistClient _ _ _) as [client [e|]]; [done|].
    intros [= <-]. simpl. done.
  - intros [= <-]. simpl. done.
Qed.

(** On the sample runtime: the enabling document gets its client and its
    mark, the document that only sets the mark loses it. *)
Lemma ParseConfig_anilist_fields_witness :
  (exists conf : Config.t unit,
     ParseConfig Sample.rt Sample.text_anilist = (Some conf, None) /\
     Config.Anilist conf =
       ConfigAnilist.mk (Some (AnilistClient.mk "42" "s3cret" tt)) true true) /\
  (exists conf : Config.t unit,
     ParseConfig Sample.rt Sample.text_marked = (Some conf, None) /\
     tempAnilist.MarkDownloaded (tempConfig.Anilist Sample.doc_marked) = true /\
     ConfigAnilist.MarkDownloaded (Config.Anilist conf) = false).
Proof.
  split.
  - assert (Hdoc : toml_Unmarshal Sample.rt Sample.text_anilist
                   = inr Sample.doc_anilist) by (vm_compute; reflexivity).
    destruct (ParseConfig_result Sample.rt Sample.text_anilist)
      as [[conf Hconf]|[e He]]; [|by vm_compute in He].
    exists conf. split; [done|].
    destruct (ParseConfig_anilist_fields Sample.rt _ _ conf Hdoc Hconf)
      as (Hen & Hon & _).
    destruct (Hon eq_refl) as [Hclient Hmark].
    destruct (Config.Anilist conf) as [client enabled mark]. simpl in *.
    vm_compute in Hclient. injection Hclient as <-. by subst.
  - assert (Hdoc : toml_Unmarshal Sample.rt Sample.text_marked
                   = inr Sample.doc_marked) by (vm_compute; reflexivity).
    destruct (ParseConfig_result Sample.rt Sample.text_marked)
      as [[conf Hconf]|[e He]]; [|by vm_compute in He].
    exists conf. split; [done|]. split; [reflexivity|].
    destruct (ParseConfig_anilist_fields Sample.rt _ _ conf Hdoc Hconf)
      as (_ & _ & Hoff).
    exact (Hoff eq_refl).
Defined.

(** X2. [ValidateConfig] does not panic on a config that [ParseConfig]
    returned, as long as [NewAnilistClient] never returns a nil client
    together with a nil error. *)
Theorem ValidateConfig_of_ParseConfig_returns {O : Type} (rt : Runtime O)
    (configString : bytes) (conf : Config.t O)
    (Hclient : forall id secret, NewAnilistClient rt id secret <> (None, None))
    (Hconf : ParseConfig rt configString = (Some conf, None)) :
  exists result, ValidateConfig rt conf = Returns result.
Proof.
  destruct (ValidateConfig rt conf) as [result|] eqn:Hv; [by exists result|].
  apply ValidateConfig_Panics_inv in Hv as (_ & Hen & Hnil).
  revert Hconf. unfold ParseConfig.
  destruct (toml_Unmarshal rt configString) as [e|tempConf]; [done|].
  unfold assemble.
  destruct (tempAnilist.Enabled (tempConfig.Anilist tempConf)).
  - destruct (NewAnilistClient _ _ _) as [client [e|]] eqn:Hnew; [done|].
    intros [= <-]. simpl in Hnil. subst client. by apply Hclient in Hnew.
  - intros [= <-]. done.
Qed.

(** On the sample runtime, for the document that enables Anilist: the
    assembled config passes validation. *)
Lemma ValidateConfig_of_ParseConfig_returns_witness :
  exists conf : Config.t unit,
    ParseConfig Sample.rt Sample.text_anilist = (Some conf, None) /\
    ConfigAnilist.Enabled (Config.Anilist conf) = true /\
    exists result, ValidateConfig Sample.rt conf = Returns result.
Proof.
  destruct (ParseConfig_result Sample.rt Sample.text_anilist)
    as [[conf Hconf]|[e He]]; [|by vm_compute in He].
  exists conf. split; [done|]. split.
  - vm_compute in Hconf. by injection Hconf as <-.
  - apply (ValidateConfig_of_ParseConfig_returns Sample.rt
             Sample.text_anilist conf); [|done].
    intros id secret. simpl. unfold Demo.NewClient.
    by destruct (String.eqb id "").
Defined.

Lemma eqb_empty_false (s : string) : String.eqb s "" = false -> s <> "".
Proof. intros H ->. done. Qed.

(** X4. A config that [ParseConfig] returned never has an empty format or an
    empty chapter-name template, global or UI; and a template that the
    document leaves empty passes the placeholder check of the validator. *)
Theorem ParseConfig_fills_format_and_templates {O : Type} (rt : Runtime O)
    (configString : bytes) (tempConf : tempConfig.t) (conf : Config.t O)
    (Hdoc : toml_Unmarshal rt configString = inr tempConf)
    (Hconf : ParseConfig rt configString = (Some conf, None)) :
  Config.Format conf <> "" /\
  Config.ChapterNameTemplate conf <> "" /\
  UI.ChapterNameTemplate (Config.UI conf) <> "" /\
  (tempConfig.Format tempConf = "" ->
   Config.Format conf ∈ AvailableFormats) /\
  (tempConfig.ChapterNameTemplate tempConf = "" ->
   validateChapterNameTemplate (Config.ChapterNameTemplate conf) = None) /\
  (UI.ChapterNameTemplate (tempConfig.UI tempConf) = "" ->
   validateChapterNameTemplate (UI.ChapterNameTemplate (Config.UI conf)) = None).
Proof.
  rewrite (ParseConfig_decoded rt _ _ Hdoc) in Hconf.
  apply assemble_fields in Hconf as (_ & _ & HF & HU & _ & _ & _ & _ & HT).
  rewrite HF, HU, HT. repeat split.
  - destruct (String.eqb (tempConfig.Format tempConf) "") eqn:E;
      [done | by apply eqb_empty_false].
  - destruct (String.eqb (tempConfig.ChapterNameTemplate tempConf) "") eqn:E;
      [done | by apply eqb_empty_false].
  - destruct (String.eqb (UI.ChapterNameTemplate (tempConfig.UI tempConf)) "")
      eqn:E; [done | by apply eqb_empty_false].
  - intros ->. apply Contains_spec. reflexivity.
  - intros ->. reflexivity.
  - intros ->. reflexivity.
Qed.

(** On the concrete runtime, for the empty document. *)
Lemma ParseConfig_fills_format_and_templates_witness :
  exists conf : Config.t unit,
    ParseConfig Demo.rt "" = (Some conf, None) /\
    Config.Format conf <> "" /\
    validateChapterNameTemplate (Config.ChapterNameTemplate conf) = None /\
    validateChapterNameTemplate (UI.ChapterNameTemplate (Config.UI conf)) = None.
Proof.
  assert (Hdoc : toml_Unmarshal Demo.rt "" = inr tempConfig.zero)
    by reflexivity.
  destruct (ParseConfig_result Demo.rt "") as [[conf Hconf]|[e He]];
    [|by vm_compute in He].
  exists conf. split; [done|].
  destruct (ParseConfig_fills_format_and_templates Demo.rt "" _ conf Hdoc Hconf)
    as (HF & _ & _ & _ & HT & HU).
  split; [done|]. split; [by apply HT | by apply HU].
Defined.

(** The names of the scrapers of a document, in the order of the visit. *)
Lemma enabled_names_spec {O : Type} (rt : Runtime O) (tempConf : tempConfig.t)
    (name : string) :
  name ∈ (filter (fun e => e.1 ∈ tempConfig.Use tempConf)
            (range_Sources rt (tempConfig.Sources tempConf))).*1 <->
  name ∈ tempConfig.Use tempConf /\
  is_Some (tempConfig.Sources tempConf !! name).
Proof.
  rewrite list_elem_of_fmap. split.
  - intros ([n source] & -> & [Hin Hm]%list_elem_of_filter).
    apply range_Sources_elem in Hm. simpl in *. split; [done | by exists source].
  - intros [Hin [source Hm]]. exists (name, source). split; [done|].
    apply list_elem_of_filter. split; [done | by apply range_Sources_elem].
Qed.

(** X5. An assembled config has no scraper exactly when no enabled name has a
    section in the document (for one, when the list of enabled names is
    missing or empty, or when no section is declared), and then
    [ValidateConfig] rejects it for listing no manga source. *)
Theorem ParseConfig_without_enabled_section {O : Type} (rt : Runtime O)
    (configString : bytes) (tempConf : tempConfig.t) (conf : Config.t O)
    (Hdoc : toml_Unmarshal rt configString = inr tempConf)
    (Hconf : ParseConfig rt configString = (Some conf, None)) :
  (Config.Scrapers conf = [] <->
   forall name, name ∈ tempConfig.Use tempConf ->
                tempConfig.Sources tempConf !! name = None) /\
  (Config.Scrapers conf = [] ->
   ValidateConfig rt conf = Returns (Some "no manga sources listed")).
Proof.
  split.
  - rewrite (ParseConfig_decoded rt _ _ Hdoc) in Hconf.
    apply assemble_fields in Hconf as (_ & -> & _).
    rewrite makeScrapers_spec. split.
    + intros Hnil%fmap_nil_inv name Hin.
      destruct (tempConfig.Sources tempConf !! name) as [source|] eqn:Hm;
        [|done].
      assert (Hel : name ∈ (filter (fun e => e.1 ∈ tempConfig.Use tempConf)
                (range_Sources rt (tempConfig.Sources tempConf))).*1)
        by (apply enabled_names_spec; split; [done | by exists source]).
      rewrite Hnil in Hel. by apply elem_of_nil in Hel.
    + intros Hnone.
      destruct (filter _ (range_Sources rt _)) as [|[name source] rest] eqn:Hf;
        [done|].
      assert (Hel : name ∈ (filter (fun e => e.1 ∈ tempConfig.Use tempConf)
                (range_Sources rt (tempConfig.Sources tempConf))).*1)
        by (rewrite Hf; simpl; left).
      apply enabled_names_spec in Hel as [Hin [source' Hm]].
      rewrite (Hnone name Hin) in Hm. done.
  - intros Hnil. unfold ValidateConfig. by rewrite Hnil.
Qed.

(** On the concrete runtime, for the empty document. *)
Lemma ParseConfig_without_enabled_section_witness :
  exists conf : Config.t unit,
    ParseConfig Demo.rt "" = (Some conf, None) /\
    ValidateConfig Demo.rt conf = Returns (Some "no manga sources listed").
Proof.
  assert (Hdoc : toml_Unmarshal Demo.rt "" = inr tempConfig.zero)
    by reflexivity.
  destruct (ParseConfig_result Demo.rt "") as [[conf Hconf]|[e He]];
    [|by vm_compute in He].
  exists conf. split; [done|].
  destruct (ParseConfig_without_enabled_section Demo.rt "" _ conf Hdoc Hconf)
    as [Hiff Hval].
  apply Hval, Hiff. intros name Hin. by apply elem_of_nil in Hin.
Defined.

(** X6. The number of scrapers of an assembled config is the number of names
    that are both enabled and declared as a section; it is at most the
    length of the list of enabled names, however often a name is listed,
    and at most the number of sections. *)
Theorem ParseConfig_scrapers_count {O : Type} (rt : Runtime O)
    (configString : bytes) (tempConf : tempConfig.t) (conf : Config.t O)
    (Hdoc : toml_Unmarshal rt configString = inr tempConf)
    (Hconf : ParseConfig rt configString = (Some conf, None)) :
  length (Config.Scrapers conf) =
    size (dom (tempConfig.Sources tempConf) ∩
          list_to_set (tempConfig.Use tempConf) : gset string) /\
  length (Config.Scrapers conf) <= length (tempConfig.Use tempConf) /\
  length (Config.Scrapers conf) <= size (tempConfig.Sources tempConf).
Proof.
  rewrite (ParseConfig_decoded rt _ _ Hdoc) in Hconf.
  apply assemble_fields in Hconf as (_ & -> & _).
  rewrite makeScrapers_spec, length_fmap.
  set (entries := filter _ (range_Sources rt _)).
  assert (Hnodup : NoDup entries.*1).
  { eapply sublist_NoDup; [apply (range_Sources_NoDup rt)|].
    apply fmap_sublist, sublist_filter. }
  rewrite <- (length_fmap fst entries). split; [|split].
  - rewrite <- (size_list_to_set (C := gset string)) by done.
    f_equal. apply set_eq. intros name.
    rewrite elem_of_list_to_set. unfold entries.
    rewrite (enabled_names_spec rt tempConf name).
    rewrite elem_of_intersection, elem_of_dom, elem_of_list_to_set. tauto.
  - apply submseteq_length, NoDup_submseteq; [done|].
    intros name Hin. by apply (enabled_names_spec rt tempConf name) in Hin as [? _].
  - rewrite length_fmap. unfold entries.
    etransitivity; [apply length_filter|].
    rewrite (range_Sources_perm rt). by rewrite length_map_to_list.
Qed.

(** On the concrete runtime, for the document with two enabled sections. *)
Lemma ParseConfig_scrapers_count_witness :
  exists conf : Config.t unit,
    ParseConfig Demo.rt Demo.text_ba = (Some conf, None) /\
    length (Config.Scrapers conf) = 2.
Proof.
  assert (Hdoc : toml_Unmarshal Demo.rt Demo.text_ba = inr Demo.doc_ba)
    by (vm_compute; reflexivity).
  destruct (ParseConfig_result Demo.rt Demo.text_ba) as [[conf Hconf]|[e He]];
    [|by vm_compute in He].
  exists conf. split; [done|].
  destruct (ParseConfig_scrapers_count Demo.rt _ _ conf Hdoc Hconf) as [-> _].
  vm_compute. reflexivity.
Defined.

(** X7. [GetConfig] with the path that [GetConfigPath] returns is [GetConfig]
    with the empty path: naming the default location changes nothing. *)
Theorem GetConfig_default_location {O : Type} (rt : Runtime O) (fs : FileSystem)
    (configPath : string)
    (Hpath : GetConfigPath rt fs = (configPath, None)) :
  GetConfig rt fs configPath = GetConfig rt fs "".
Proof.
  unfold GetConfig.
  destruct (String.eqb_spec configPath "") as [->|Hne]; [done|].
  change (String.eqb "" "") with true. cbv iota. by rewrite Hpath.
Qed.

(** On the concrete runtime, whose default location holds an empty file. *)
Lemma GetConfig_default_location_witness :
  GetConfig Demo.rt Demo.fs_files "/home/u/.config/mangal/config.toml" =
  GetConfig Demo.rt Demo.fs_files "".
Proof.
  apply (GetConfig_default_location Demo.rt Demo.fs_files).
  vm_compute. reflexivity.
Defined.

(** X8. [GetConfig] consults the host at one path only, the given one or the
    default location, and reads the file only when the existence check
    says, without error, that it is there: two hosts that agree on that
    much give the same config, whatever else they hold. *)
Theorem GetConfig_reads_one_file {O : Type} (rt : Runtime O)
    (fs fs' : FileSystem) (path configPath : string)
    (Hloc : located rt fs path configPath)
    (Hloc' : located rt fs' path configPath)
    (Hexists : Afero_Exists fs configPath = Afero_Exists fs' configPath)
    (Hread : Afero_Exists fs configPath = (true, None) ->
             Afero_ReadFile fs configPath = Afero_ReadFile fs' configPath) :
  GetConfig rt fs path = GetConfig rt fs' path.
Proof.
  unfold located in Hloc, Hloc'. unfold GetConfig.
  rewrite Hloc, Hloc', <- Hexists.
  destruct (Afero_Exists fs configPath) as [b [e|]]; [done|].
  destruct b; [|done]. simpl. by rewrite <- Hread.
Qed.

(** Two hosts of the concrete runtime that differ in a file the load does
    not look at. *)
Lemma GetConfig_reads_one_file_witness :
  GetConfig Demo.rt Demo.fs_files "ba.toml" =
  GetConfig Demo.rt
    {| os_UserConfigDir := ("", Some "no home");
       Afero_Exists := fun p => (String.eqb p "ba.toml", None);
       Afero_ReadFile := fun p =>
         if String.eqb p "ba.toml" then (Demo.text_ba, None)
         else ("use = [", None) |}
    "ba.toml".
Proof.
  apply (GetConfig_reads_one_file Demo.rt _ _ "ba.toml" "ba.toml");
    reflexivity.
Defined.

Lemma range_Sources_singleton {O : Type} (rt : Runtime O) (name : string)
    (source : Source.t) :
  range_Sources rt {[ name := source ]} = [(name, source)].
Proof.
  apply Permutation_singleton_r.
  rewrite (range_Sources_perm rt). by rewrite map_to_list_singleton.
Qed.

(** X9. The default config is valid whenever the collaborators do their part
    on the default document: the decoder reads it as what it says, and the
    scraper made for its one section, [manganelo], has a source that
    passes its self-check. Then every config that [GetConfig] falls back
    to passes [ValidateConfig]. *)
Theorem DefaultConfig_is_valid {O : Type} (rt : Runtime O)
    (source : Source.t)
    (Hdefault : toml_Unmarshal rt DefaultConfigBytes = inr DefaultDocument)
    (Hmade : Scraper.Source
               (MakeSourceScraper rt (Source.set_Name "manganelo" DefaultSource))
             = Some source)
    (Hvalid : ValidateSource rt source = None) :
  exists dflt,
    DefaultConfig rt = Some dflt /\
    ValidateConfig rt dflt = Returns None /\
    forall fs path,
      load_failure rt fs path -> GetConfig rt fs path = Some dflt.
Proof.
  assert (Hd : DefaultConfig rt = fst (assemble rt DefaultDocument)).
  { unfold DefaultConfig. rewrite (ParseConfig_decoded rt _ _ Hdefault).
    by destruct (assemble rt DefaultDocument). }
  destruct (assemble rt DefaultDocument) as [[dflt|] err] eqn:Has;
    [|by unfold assemble in Has].
  exists dflt. simpl in Hd. split; [done|].
  assert (Hval : ValidateConfig rt dflt = Returns None).
  { revert Has. unfold assemble. simpl. intros [= <- _].
    unfold ValidateConfig, makeScrapers. simpl.
    rewrite range_Sources_singleton. simpl.
    unfold checkAnilist. simpl. unfold createScraper. simpl.
    by rewrite Hmade, Hvalid. }
  split; [done|].
  intros fs path Hfail. rewrite <- Hd. unfold GetConfig.
  destruct Hfail as [e -> He|p b err' Hp Hex Hno|p c e Hp Hex Hrd|p c r e Hp Hex Hrd Hparse].
  - simpl. destruct (GetConfigPath rt fs) as [p err']. simpl in He. by subst.
  - unfold located in Hp. rewrite Hp, Hex. destruct Hno as [Hne| ->].
    + by rewrite bool_decide_true.
    + by rewrite orb_true_r.
  - unfold located in Hp. by rewrite Hp, Hex, Hrd.
  - unfold located in Hp. by rewrite Hp, Hex, Hrd, Hparse.
Qed.

(** On the concrete runtime: a broken file makes [GetConfig] return the
    default config, which is valid. *)
Lemma DefaultConfig_is_valid_witness :
  exists dflt : Config.t unit,
    GetConfig Demo.rt Demo.fs_files "broken.toml" = Some dflt /\
    ValidateConfig Demo.rt dflt = Returns None.
Proof.
  destruct (DefaultConfig_is_valid Demo.rt
              (Source.set_Name "manganelo" DefaultSource))
    as (dflt & _ & Hval & Hfall).
  - vm_compute. reflexivity.
  - reflexivity.
  - reflexivity.
  - exists dflt. split; [|done]. apply Hfall.
    apply (Unparsable _ _ _ "broken.toml" "use = [" None
                      "toml: document not known to this decoder");
      vm_compute; reflexivity.
Defined.

(** * The commands

    The command-line entry points ([rootCmd], [whereCmd], [initCmd],
    [cleanupCmd]). A command runs against a host, whose state it reads and
    changes through the calls of [Host]; what it does is kept in a trace:
    the lines it prints and the calls that can change the host, each with
    the error it returned. [log.Fatal] ends the run with its message. *)

(** An entry of a directory listing ([os.FileInfo]). *)
Module FileInfo.
Record t := mk {
  Name : string;
  IsDir : bool;
  Size : Z
}.
End FileInfo.

(** A [w]-bit signed integer, as the integer it wraps around to. *)
Definition wrap (bits : Z) (z : Z) : Z :=
  ((z + 2 ^ (bits - 1)) mod 2 ^ bits - 2 ^ (bits - 1))%Z.

Inductive effect :=
| Printed (text : string)
| CalledMkdirAll (path : string) (perm : N) (err : option error)
| CalledCreate (path : string) (err : option error)
| CalledWrite (path : string) (data : bytes) (err : option error)
| CalledRemoveAll (path : string) (err : option error)
| CalledOpen (path : string) (err : option error)
| CalledProgramStart (altScreen : bool) (err : option error).

(** What the commands take from the host and from the rest of the
    repository, over a host state [W].
    - [AppName]: the application name constant of the commands.
    - [intSize]: the width of [int] on the platform.
    - [path_Clean], [filepath_Dir]: of the Go standard library.
    - [cleanupReport]: the line [fmt.Printf] makes of the number of files
      and of the megabytes that [BytesToMegabytes] makes of the bytes.
    - [view]: the host as [GetConfigPath] and [GetConfig] read it.
    - [os_TempDir], [os_UserCacheDir], [Afero_ReadDir], [DirSize]: reads.
    - [Afero_MkdirAll], [Afero_Create], [File_Write] (on the file created
      at the path), [Afero_RemoveAll], [open_Start], [program_Start] (the
      terminal program, with or without the alternate screen): calls that
      return the host after the call and an error. *)
Record Host {W : Type} := {
  AppName : string;
  intSize : Z;
  path_Clean : string -> string;
  filepath_Dir : string -> string;
  cleanupReport : Z -> Z -> string;
  view : W -> FileSystem;
  os_TempDir : W -> string;
  os_UserCacheDir : W -> string * option error;
  Afero_ReadDir : W -> string -> list FileInfo.t * option error;
  DirSize : W -> string -> Z * option error;
  Afero_MkdirAll : W -> string -> N -> W * option error;
  Afero_Create : W -> string -> W * option error;
  File_Write : W -> string -> bytes -> W * option error;
  Afero_RemoveAll : W -> string -> W * option error;
  open_Start : W -> string -> W * option error;
  program_Start : W -> bool -> W * option error
}.
Arguments Host : clear implicits.

(** The state of a run: the host, the global variable [UserConfig], and
    the trace so far. *)
Record session {O W : Type} := Session {
  world : W;
  UserConfig : option (Config.t O);
  trace : list effect
}.
Arguments session : clear implicits.
Arguments Session {O W}.

(** How a step of a command ends: it goes on with a value, the process
    exits through [log.Fatal], or it panics. *)
Inductive step (A : Type) :=
| Next (a : A)
| Exit (msg : string)
| Panic.
Arguments Next {A}.
Arguments Exit {A}.
Arguments Panic {A}.

Definition Cmd (O W A : Type) : Type := session O W -> session O W * step A.

Definition cmd_ret {O W A : Type} (a : A) : Cmd O W A :=
  fun s => (s, Next a).

Definition cmd_bind {O W A B : Type} (m : Cmd O W A) (k : A -> Cmd O W B)
    : Cmd O W B :=
  fun s =>
    let '(s1, r) := m s in
    match r with
    | Next a => k a s1
    | Exit msg => (s1, Exit msg)
    | Panic => (s1, Panic)
    end.

Declare Scope cmd_scope.
Delimit Scope cmd_scope with cmd.
Notation "'let*' x ':=' m 'in' k" := (cmd_bind m (fun x => k))
  (at level 10, x name, m at level 100, k at level 200, only parsing)
  : cmd_scope.
Notation "'let*' ' pat ':=' m 'in' k" :=
  (cmd_bind m (fun x => match x with pat => k end))
  (at level 10, pat pattern, m at level 100, k at level 200, only parsing)
  : cmd_scope.

Section Commands.
Context {O W : Type}.
Variable rt : Runtime O.
Variable host : Host W.

Local Open Scope cmd_scope.

(** [log.Fatal(msg)]. *)
Definition log_Fatal {A : Type} (msg : string) : Cmd O W A :=
  fun s => (s, Exit msg).

(** [if err != nil { log.Fatal(msg) }]. *)
Definition fatalIf (err : option error) (msg : string) : Cmd O W unit :=
  match err with
  | Some _ => log_Fatal msg
  | None => cmd_ret tt
  end.

(** [fmt.Printf] and [fmt.Println], with the text they print. *)
Definition fmt_Print (text : string) : Cmd O W unit :=
  fun s => (Session (world s) (UserConfig s) (trace s ++ [Printed text]), Next tt).

(** A read of the host. *)
Definition ask {A : Type} (f : W -> A) : Cmd O W A :=
  fun s => (s, Next (f (world s))).

(** A call that can change the host; it goes into the trace with the
    error it returns. *)
Definition act (e : option error -> effect) (f : W -> W * option error)
    : Cmd O W (option error) :=
  fun s =>
    let '(w, err) := f (world s) in
    (Session w (UserConfig s) (trace s ++ [e err]), Next err).

Definition setUserConfig (config : option (Config.t O)) : Cmd O W unit :=
  fun s => (Session (world s) config (trace s), Next tt).

(** [UserConfig.Fullscreen]: a read through the global pointer. *)
Definition derefUserConfig : Cmd O W (Config.t O) :=
  fun s =>
    match UserConfig s with
    | Some userConfig => (s, Next userConfig)
    | None => (s, Panic)
    end.

(** The [Run] function of [rootCmd]; [config] is the value of the flag of
    that name. *)
Definition rootCmd_Run (config : string) : Cmd O W unit :=
  let* '(exists_, err) := ask (fun w => Afero_Exists (view host w) config) in
  let* _ := fatalIf err "access to config file denied" in
  let* _ :=
    if negb (String.eqb config "") then
      let config := path_Clean host config in
      let* _ :=
        if negb exists_
        then log_Fatal ("config at path " +:+ config +:+ " doesn't exist")
        else cmd_ret tt in
      let* fs := ask (view host) in
      setUserConfig (GetConfig rt fs config)
    else
      (* get config from default config path *)
      let* fs := ask (view host) in
      setUserConfig (GetConfig rt fs "") in
  let* userConfig := derefUserConfig in
  let altScreen := UI.Fullscreen (Config.UI userConfig) in
  let* err := act (CalledProgramStart altScreen)
                  (fun w => program_Start host w altScreen) in
  match err with
  | Some err => log_Fatal err
  | None => cmd_ret tt
  end.

(** The [Run] function of [whereCmd]; [flag] is what reading the flag
    [edit] returns. *)
Definition whereCmd_Run (flag : bool * option error) : Cmd O W unit :=
  let '(edit, err) := flag in
  let* _ := fatalIf err "Unexpected error while getting flag" in
  let* '(configPath, err) := ask (fun w => GetConfigPath rt (view host w)) in
  let* _ := fatalIf err "Can't get config location, permission denied, probably" in
  let* '(exists_, err) := ask (fun w => Afero_Exists (view host w) configPath) in
  let* _ := fatalIf err
              ("Can't understand if config exists or not. It is expected at"
               +:+ nl +:+ configPath +:+ nl) in
  if exists_ then
    if edit then
      let* err := act (CalledOpen configPath)
                      (fun w => open_Start host w configPath) in
      fatalIf err "Can not open the editor"
    else
      fmt_Print ("Config exists at" +:+ nl +:+ configPath +:+ nl)
  else
    fmt_Print ("Config doesn't exist, but it is expected to be at"
               +:+ nl +:+ configPath +:+ nl).

(** The closure [createConfig] of [initCmd]. *)
Definition createConfig (configPath : string) : Cmd O W unit :=
  let* err := act (CalledMkdirAll (filepath_Dir host configPath) 448)
                  (fun w => Afero_MkdirAll host w
                              (filepath_Dir host configPath) 448) in
  match err with
  | Some _ => log_Fatal "Error while creating file"
  | None =>
      let* err := act (CalledCreate configPath)
                      (fun w => Afero_Create host w configPath) in
      match err with
      | Some _ => log_Fatal "Error while creating file"
      | None =>
          let* err := act (CalledWrite configPath DefaultConfigBytes)
                          (fun w => File_Write host w configPath
                                      DefaultConfigBytes) in
          match err with
          | Some _ => log_Fatal "Error while writing to file"
          | None =>
              fmt_Print ("Config created at" +:+ nl +:+ configPath +:+ nl)
          end
      end
  end.

(** The [Run] function of [initCmd]; [flag] is what reading the flag
    [force] returns. *)
Definition initCmd_Run (flag : bool * option error) : Cmd O W unit :=
  let '(force, err) := flag in
  let* _ := fatalIf err "Unexpected error while getting flag" in
  let* '(configPath, err) := ask (fun w => GetConfigPath rt (view host w)) in
  let* _ := fatalIf err "Can't get config location, permission denied, probably" in
  let* '(exists_, err) := ask (fun w => Afero_Exists (view host w) configPath) in
  match err with
  | Some _ =>
      if force then createConfig configPath
      else log_Fatal
             ("Can't understand if config exists or not. It is expected at"
              +:+ nl +:+ configPath +:+ nl)
  | None =>
      if exists_ then
        if force then createConfig configPath
        else log_Fatal "Config file already exists. Use --force to overwrite it"
      else createConfig configPath
  end.

End Commands.

Section Cleanup.
Context {O W : Type}.
Variable rt : Runtime O.
Variable host : Host W.

Local Open Scope cmd_scope.

(** A [for ... range] loop over a slice that carries the local variables
    [acc] from one turn to the next. *)
Fixpoint forRange {A B : Type} (body : B -> A -> Cmd O W B) (slice : list A)
    (acc : B) : Cmd O W B :=
  match slice with
  | [] => cmd_ret acc
  | x :: rest => let* acc := body acc x in forRange body rest acc
  end.

(** The temp entry [name] is one of the application: its name starts with
    the application name, as it is or in lower case. *)
Definition ownTempName (name : string) : bool :=
  String.prefix (AppName host) name ||
  String.prefix (strings_ToLower rt (AppName host)) name.

(** One turn of the loop of [cleanupCmd] over the temp files; the
    accumulator is the pair of [counter] and [bytes]. *)
Definition cleanTempFile (tempDir : string) (acc : Z * Z)
    (tempFile : FileInfo.t) : Cmd O W (Z * Z) :=
  let '(counter, bytes) := acc in
  let name := FileInfo.Name tempFile in
  if ownTempName name then
    let p := filepath_Join rt [tempDir; name] in
    let* bytes :=
      if FileInfo.IsDir tempFile then
        let* '(b, err) := ask (fun w => DirSize host w p) in
        match err with
        | None => cmd_ret (wrap 64 (bytes + b))
        | Some _ => cmd_ret bytes
        end
      else cmd_ret bytes in
    let* err := act (CalledRemoveAll p) (fun w => Afero_RemoveAll host w p) in
    match err with
    | None =>
        cmd_ret (wrap (intSize host) (counter + 1),
                 wrap 64 (bytes + FileInfo.Size tempFile))
    | Some _ => cmd_ret (counter, bytes)
    end
  else cmd_ret acc.

(** Cleanup temp files. *)
Definition cleanTemp (acc : Z * Z) : Cmd O W (Z * Z) :=
  let* tempDir := ask (os_TempDir host) in
  let* '(tempFiles, err) := ask (fun w => Afero_ReadDir host w tempDir) in
  match err with
  | None => forRange (cleanTempFile tempDir) tempFiles acc
  | Some _ => cmd_ret acc
  end.

(** Cleanup cache files. *)
Definition cleanCache (acc : Z * Z) : Cmd O W (Z * Z) :=
  let '(counter, bytes) := acc in
  let* '(cacheDir, err) := ask (os_UserCacheDir host) in
  match err with
  | None =>
      let scraperCacheDir := filepath_Join rt [cacheDir; AppName host] in
      let* '(exists_, err) :=
        ask (fun w => Afero_Exists (view host w) scraperCacheDir) in
      if bool_decide (err = None) && exists_ then
        let* '(files, err) := ask (fun w => Afero_ReadDir host w scraperCacheDir) in
        let acc :=
          match err with
          | None =>
              (wrap (intSize host) (counter + Z.of_nat (length files)),
               foldl (fun bytes f => wrap 64 (bytes + FileInfo.Size f))
                     bytes files)
          | Some _ => (counter, bytes)
          end in
        let* _ := act (CalledRemoveAll scraperCacheDir)
                      (fun w => Afero_RemoveAll host w scraperCacheDir) in
        cmd_ret acc
      else cmd_ret acc
  | Some _ => cmd_ret acc
  end.

(** The [Run] function of [cleanupCmd]. *)
Definition cleanupCmd_Run : Cmd O W unit :=
  let* acc := cleanTemp (0%Z, 0%Z) in
  let* '(counter, bytes) := cleanCache acc in
  fmt_Print (cleanupReport host counter bytes).

End Cleanup.

(** ** A host in memory

    Regular files with their contents, directories with their listing,
    and paths that refuse to be removed. *)
Module Mem.

Record t := mk {
  files : gmap string bytes;
  dirs : gmap string (list FileInfo.t);
  locked : list string
}.

Definition fs (w : t) : FileSystem :=
  {| os_UserConfigDir := ("/home/u/.config", None);
     Afero_Exists := fun p =>
       (bool_decide (is_Some (files w !! p)) ||
        bool_decide (is_Some (dirs w !! p)), None);
     Afero_ReadFile := fun p =>
       match files w !! p with
       | Some data => (data, None)
       | None => ("", Some "file does not exist")
       end |}.

Definition ReadDir (w : t) (p : string) : list FileInfo.t * option error :=
  match dirs w !! p with
  | Some entries => (entries, None)
  | None => ([], Some "no such directory")
  end.

Definition dirSize (w : t) (p : string) : Z * option error :=
  match dirs w !! p with
  | Some entries => (foldr (fun f n => (FileInfo.Size f + n)%Z) 0%Z entries, None)
  | None => (0%Z, Some "no such directory")
  end.

Definition MkdirAll (w : t) (p : string) (perm : N) : t * option error :=
  match dirs w !! p with
  | Some _ => (w, None)
  | None => (mk (files w) (<[p := []]> (dirs w)) (locked w), None)
  end.

Definition Create (w : t) (p : string) : t * option error :=
  (mk (<[p := ""]> (files w)) (dirs w) (locked w), None).

Definition Write (w : t) (p : string) (data : bytes) : t * option error :=
  match files w !! p with
  | Some old => (mk (<[p := old +:+ data]> (files w)) (dirs w) (locked w), None)
  | None => (w, Some "file already closed")
  end.

Definition RemoveAll (w : t) (p : string) : t * option error :=
  if Contains (locked w) p then (w, Some "operation not permitted")
  else (mk (delete p (files w)) (delete p (dirs w)) (locked w), None).

Definition host : Host t :=
  {| AppName := "Mangal";
     intSize := 64;
     path_Clean := fun p => p;
     filepath_Dir := fun p => "/home/u/.config/mangal";
     cleanupReport := fun counter bytes =>
       if (counter =? 0)%Z then "nothing removed" else "files removed";
     view := fs;
     os_TempDir := fun _ => "/tmp";
     os_UserCacheDir := fun _ => ("/home/u/.cache", None);
     Afero_ReadDir := ReadDir;
     DirSize := dirSize;
     Afero_MkdirAll := MkdirAll;
     Afero_Create := Create;
     File_Write := Write;
     Afero_RemoveAll := RemoveAll;
     open_Start := fun w _ => (w, None);
     program_Start := fun w _ => (w, None) |}.

(** A host with nothing on it, and one with temp files and a cache. *)
Definition empty : t := mk ∅ ∅ [].

Definition littered : t :=
  mk {[ "/tmp/mangal-1.jpg" := "jpeg"; "/tmp/other.txt" := "text" ]}
     {[ "/tmp" := [FileInfo.mk "mangal-1.jpg" false 4;
                   FileInfo.mk "Mangal_chapter" true 0;
                   FileInfo.mk "other.txt" false 4;
                   FileInfo.mk "mangal-busy" false 7];
        "/tmp/Mangal_chapter" := [FileInfo.mk "1.jpg" false 10];
        "/home/u/.cache/Mangal" := [FileInfo.mk "a" false 1;
                                    FileInfo.mk "b" false 2] ]}
     ["/tmp/mangal-busy"].

Definition start {O : Type} (w : t) : session O t := Session w None [].

End Mem.

(** ** Vocabulary of the properties of the commands *)

(** What [createConfig] can add to the trace, with how it ends: the three
    calls in order, up to the first that fails, and the confirmation line
    after the third. *)
Inductive createsConfig (dir configPath : string)
    : list effect -> step unit -> Prop :=
| MkdirFailed (e : error) :
    createsConfig dir configPath
      [CalledMkdirAll dir 448 (Some e)]
      (Exit "Error while creating file")
| CreateFailed (e : error) :
    createsConfig dir configPath
      [CalledMkdirAll dir 448 None; CalledCreate configPath (Some e)]
      (Exit "Error while creating file")
| WriteFailed (e : error) :
    createsConfig dir configPath
      [CalledMkdirAll dir 448 None; CalledCreate configPath None;
       CalledWrite configPath DefaultConfigBytes (Some e)]
      (Exit "Error while writing to file")
| ConfigCreated :
    createsConfig dir configPath
      [CalledMkdirAll dir 448 None; CalledCreate configPath None;
       CalledWrite configPath DefaultConfigBytes None;
       Printed ("Config created at" +:+ nl +:+ configPath +:+ nl)]
      (Next tt).

(** A host keeps what is written to it: a file that was created and then
    written reads back as the data, and the per-user configuration
    directory is the same in every state. *)
Definition keepsWrites {W : Type} (host : Host W) : Prop :=
  (forall w w1 w2 p data,
     Afero_Create host w p = (w1, None) ->
     File_Write host w1 p data = (w2, None) ->
     Afero_Exists (view host w2) p = (true, None) /\
     Afero_ReadFile (view host w2) p = (data, None)) /\
  (forall w w',
     os_UserConfigDir (view host w) = os_UserConfigDir (view host w')).

(** A successful [RemoveAll] in the trace. *)
Definition removedOk (e : effect) : bool :=
  match e with
  | CalledRemoveAll _ None => true
  | _ => false
  end.

(** ** Facts about the commands *)

Section CommandFacts.
Context {O W : Type}.
Variable rt : Runtime O.
Variable host : Host W.

Lemma createConfig_spec (configPath : string) (s : session O W) :
  exists s' r new,
    createConfig host configPath s = (s', r) /\
    trace s' = (trace s ++ new)%list /\
    UserConfig s' = UserConfig s /\
    createsConfig (filepath_Dir host configPath) configPath new r /\
    (r = Next tt ->
     exists w0 w1,
       Afero_Create host w0 configPath = (w1, None) /\
       File_Write host w1 configPath DefaultConfigBytes = (world s', None)).
Proof.
  unfold createConfig, cmd_bind, act, log_Fatal, fmt_Print. simpl.
  destruct (Afero_MkdirAll host (world s) _ _) as [w0 [e|]] eqn:Hmk; simpl.
  { do 3 eexists. split; [reflexivity|]. simpl.
    split; [reflexivity|]. split; [reflexivity|].
    split; [apply MkdirFailed | done]. }
  destruct (Afero_Create host w0 configPath) as [w1 [e|]] eqn:Hcr; simpl.
  { do 3 eexists. split; [reflexivity|]. simpl.
    rewrite <- app_assoc. split; [reflexivity|]. split; [reflexivity|].
    split; [apply CreateFailed | done]. }
  destruct (File_Write host w1 configPath DefaultConfigBytes) as [w2 [e|]] eqn:Hwr;
    simpl.
  { do 3 eexists. split; [reflexivity|]. simpl.
    rewrite <- !app_assoc. split; [reflexivity|]. split; [reflexivity|].
    split; [apply WriteFailed | done]. }
  do 3 eexists. split; [reflexivity|]. simpl.
  rewrite <- !app_assoc. split; [reflexivity|]. split; [reflexivity|].
  split; [apply ConfigCreated|]. intros _. by exists w0, w1.
Qed.

(** The runs of [initCmd]: either nothing is touched and the process
    exits, or [createConfig] runs on the configuration path; the latter
    only with the force flag or when the existence check says, without
    error, that there is no file. *)
Lemma initCmd_Run_cases (force : bool) (ferr : option error) (s : session O W) :
  (exists msg, initCmd_Run rt host (force, ferr) s = (s, Exit msg)) \/
  (exists configPath,
     ferr = None /\
     GetConfigPath rt (view host (world s)) = (configPath, None) /\
     (force = true \/
      Afero_Exists (view host (world s)) configPath = (false, None)) /\
     initCmd_Run rt host (force, ferr) s = createConfig host configPath s).
Proof.
  unfold initCmd_Run, cmd_bind, fatalIf, ask, log_Fatal, cmd_ret.
  destruct ferr as [e|]; [left; by eexists|].
  destruct (GetConfigPath rt (view host (world s))) as [configPath [e|]];
    [left; by eexists|].
  destruct (Afero_Exists (view host (world s)) configPath) as [b [e|]] eqn:Hex.
  - destruct force; [|left; by eexists].
    right. exists configPath. repeat split; by try left.
  - destruct b.
    + destruct force; [|left; by eexists].
      right. exists configPath. repeat split; by try left.
    + right. exists configPath. repeat split; by try right.
Qed.

End CommandFacts.

(** ** The command [init] *)

(** X10. Without the force flag, [initCmd] leaves the host alone unless the
    existence check reports, without error, that there is no config file:
    when the file is there, or when the check itself fails, the run ends
    in [log.Fatal] with the session as it was, nothing created and
    nothing written. *)
Theorem initCmd_keeps_existing_config {O W : Type} (rt : Runtime O)
    (host : Host W) (ferr : option error) (s : session O W)
    (Hthere : forall configPath,
       GetConfigPath rt (view host (world s)) = (configPath, None) ->
       Afero_Exists (view host (world s)) configPath <> (false, None)) :
  exists msg, initCmd_Run rt host (false, ferr) s = (s, Exit msg).
Proof.
  destruct (initCmd_Run_cases rt host false ferr s)
    as [Hexit | (p & _ & Hp & [Hforce | Hmissing] & _)]; [done| done |].
  by destruct (Hthere p Hp).
Qed.

Lemma Mem_init_twice :
  exists s1 : session unit Mem.t,
    initCmd_Run Demo.rt Mem.host (false, None) (Mem.start Mem.empty)
      = (s1, Next tt) /\
    Afero_ReadFile (Mem.fs (world s1)) "/home/u/.config/mangal/config.toml"
      = (DefaultConfigBytes, None) /\
    Afero_Exists (Mem.fs (world s1)) "/home/u/.config/mangal/config.toml"
      = (true, None).
Proof. eexists. split; [vm_compute; reflexivity|]. split; vm_compute; reflexivity. Qed.

(** On the host in memory: [init] on the empty host creates the file, and
    a second [init] without force exits and leaves it as it is. *)
Lemma initCmd_keeps_existing_config_witness :
  exists s1 : session unit Mem.t,
    initCmd_Run Demo.rt Mem.host (false, None) (Mem.start Mem.empty)
      = (s1, Next tt) /\
    initCmd_Run Demo.rt Mem.host (false, None) s1 =
      (s1, Exit "Config file already exists. Use --force to overwrite it").
Proof.
  destruct Mem_init_twice as (s1 & Hrun & Hread & Hexists).
  exists s1. split; [done|].
  destruct (initCmd_keeps_existing_config Demo.rt Mem.host None s1) as [msg Hmsg].
  - intros p [= <-]. change (view Mem.host (world s1)) with (Mem.fs (world s1)).
    change (Demo.Join _) with "/home/u/.config/mangal/config.toml".
    by rewrite Hexists.
  - rewrite Hmsg. f_equal. f_equal.
    revert Hmsg. unfold initCmd_Run, cmd_bind, fatalIf, ask, cmd_ret, log_Fatal.
    change (GetConfigPath Demo.rt (view Mem.host (world s1)))
      with ("/home/u/.config/mangal/config.toml", @None error).
    cbv beta iota.
    change (view Mem.host (world s1)) with (Mem.fs (world s1)).
    rewrite Hexists. by intros [= <-].
Defined.

(** X11. Whatever the flag and the host: [initCmd] either exits with the
    session untouched, or performs the calls of [createConfig] on the
    configuration path and nothing else: the directory of the path is made
    with mode 0700, the file is created, the default document is written
    to it, in this order and up to the first call that fails; the
    confirmation is printed, and the run ends normally, exactly when all
    three succeeded. The global config is never touched. *)
Theorem initCmd_effects {O W : Type} (rt : Runtime O) (host : Host W)
    (flag : bool * option error) (s : session O W) :
  exists s' r new,
    initCmd_Run rt host flag s = (s', r) /\
    trace s' = (trace s ++ new)%list /\
    UserConfig s' = UserConfig s /\
    ((new = [] /\ world s' = world s /\ exists msg, r = Exit msg) \/
     (exists configPath,
        GetConfigPath rt (view host (world s)) = (configPath, None) /\
        createsConfig (filepath_Dir host configPath) configPath new r)).
Proof.
  destruct flag as [force ferr].
  destruct (initCmd_Run_cases rt host force ferr s)
    as [[msg Hexit] | (p & _ & Hp & _ & Hrun)].
  - exists s, (Exit msg), []. rewrite app_nil_r.
    split; [done|]. split; [done|]. split; [done|]. left. by eauto.
  - destruct (createConfig_spec host p s) as (s' & r & new & Hc & Ht & Hu & Hk & _).
    exists s', r, new. rewrite Hrun. repeat split; try done.
    right. by exists p.
Qed.

Lemma GetConfigPath_same_dir {O : Type} (rt : Runtime O) (fs fs' : FileSystem) :
  os_UserConfigDir fs = os_UserConfigDir fs' ->
  GetConfigPath rt fs = GetConfigPath rt fs'.
Proof. intros H. unfold GetConfigPath. by rewrite H. Qed.

Lemma GetConfig_of_default_bytes {O : Type} (rt : Runtime O) (fs : FileSystem)
    (configPath : string) :
  GetConfigPath rt fs = (configPath, None) ->
  Afero_Exists fs configPath = (true, None) ->
  Afero_ReadFile fs configPath = (DefaultConfigBytes, None) ->
  GetConfig rt fs "" = DefaultConfig rt.
Proof.
  intros Hp Hex Hrd. unfold GetConfig.
  change (String.eqb "" "") with true. cbv iota.
  rewrite Hp, Hex. simpl. rewrite Hrd. unfold DefaultConfig.
  by destruct (ParseConfig rt DefaultConfigBytes) as [config [e|]].
Qed.

(** X12. [init], then load. On a host that keeps what is written to it, after
    a run of [initCmd] that ends normally the file at the default location
    holds the default document, and [GetConfig] with the empty path
    returns what [DefaultConfig] returns. *)
Theorem initCmd_then_GetConfig {O W : Type} (rt : Runtime O) (host : Host W)
    (flag : bool * option error) (s s' : session O W)
    (Hhost : keepsWrites host)
    (Hrun : initCmd_Run rt host flag s = (s', Next tt)) :
  (exists configPath,
     GetConfigPath rt (view host (world s')) = (configPath, None) /\
     Afero_ReadFile (view host (world s')) configPath
       = (DefaultConfigBytes, None)) /\
  GetConfig rt (view host (world s')) "" = DefaultConfig rt.
Proof.
  destruct Hhost as [Hkeep Hdir]. destruct flag as [force ferr].
  destruct (initCmd_Run_cases rt host force ferr s)
    as [[msg Hexit] | (p & _ & Hp & _ & Hcreate)]; [congruence|].
  rewrite Hcreate in Hrun.
  destruct (createConfig_spec host p s) as (s1 & r & new & Hc & _ & _ & _ & Hok).
  rewrite Hrun in Hc. injection Hc as <- <-.
  destruct (Hok eq_refl) as (w0 & w1 & Hcr & Hwr).
  destruct (Hkeep w0 w1 (world s') p DefaultConfigBytes Hcr Hwr) as [Hex Hrd].
  assert (Hp' : GetConfigPath rt (view host (world s')) = (p, None)).
  { rewrite <- Hp. apply GetConfigPath_same_dir, Hdir. }
  split; [by exists p|]. by apply (GetConfig_of_default_bytes rt _ p).
Qed.

Lemma Mem_keepsWrites : keepsWrites Mem.host.
Proof.
  split; [|done].
  intros w w1 w2 p data [= <-]. simpl. unfold Mem.Write. simpl.
  rewrite lookup_insert_eq. intros [= <-]. simpl.
  rewrite !lookup_insert_eq. split; [|done].
  by rewrite bool_decide_true.
Qed.

(** On the host in memory, starting with nothing on it. *)
Lemma initCmd_then_GetConfig_witness :
  exists s1 : session unit Mem.t,
    initCmd_Run Demo.rt Mem.host (false, None) (Mem.start Mem.empty)
      = (s1, Next tt) /\
    GetConfig Demo.rt (Mem.fs (world s1)) "" = DefaultConfig Demo.rt.
Proof.
  destruct Mem_init_twice as (s1 & Hrun & _).
  exists s1. split; [done|].
  exact (proj2 (initCmd_then_GetConfig Demo.rt Mem.host (false, None)
                  (Mem.start Mem.empty) s1 Mem_keepsWrites Hrun)).
Defined.

(** ** The command [where] *)

Lemma string_append_assoc (s1 s2 s3 : string) :
  (s1 +:+ s2) +:+ s3 = s1 +:+ (s2 +:+ s3).
Proof.
  induction s1 as [|c s1 IH]; [done|].
  rewrite !append_cons_l. by rewrite IH.
Qed.

(** X13. [whereCmd] opens the editor exactly when the edit flag is set and the
    config file exists (the flag and the path being read without error),
    and then it prints nothing. In every other run the host is left as it
    is: either the process exits with nothing done, or one line is printed
    that names the configuration path; in particular the edit flag has no
    effect when there is no config file. *)
Theorem whereCmd_opens_editor_on_request {O W : Type} (rt : Runtime O)
    (host : Host W) (edit : bool) (ferr : option error) (s : session O W) :
  let requested :=
    ferr = None /\ edit = true /\
    exists configPath,
      GetConfigPath rt (view host (world s)) = (configPath, None) /\
      Afero_Exists (view host (world s)) configPath = (true, None) in
  exists s' r new,
    whereCmd_Run rt host (edit, ferr) s = (s', r) /\
    trace s' = (trace s ++ new)%list /\
    UserConfig s' = UserConfig s /\
    ((requested /\
      exists configPath err,
        GetConfigPath rt (view host (world s)) = (configPath, None) /\
        open_Start host (world s) configPath = (world s', err) /\
        new = [CalledOpen configPath err] /\
        r = match err with
            | Some _ => Exit "Can not open the editor"
            | None => Next tt
            end) \/
     (~ requested /\ world s' = world s /\
      ((new = [] /\ exists msg, r = Exit msg) \/
       (exists configPath text,
          GetConfigPath rt (view host (world s)) = (configPath, None) /\
          new = [Printed text] /\ hasToken configPath text /\ r = Next tt)))).
Proof.
  unfold whereCmd_Run, cmd_bind, fatalIf, ask, act, log_Fatal, cmd_ret, fmt_Print.
  destruct ferr as [e|].
  { exists s, (Exit "Unexpected error while getting flag"), [].
    rewrite app_nil_r. repeat split; try done.
    right. split; [by intros [? _]|]. split; [done|]. left. by eauto. }
  destruct (GetConfigPath rt (view host (world s))) as [p [e|]] eqn:Hp.
  { eexists s, _, []. rewrite app_nil_r. split; [reflexivity|].
    repeat split; try done.
    right. split; [by intros (_ & _ & p' & ? & _)|]. split; [done|].
    left. by eauto. }
  destruct (Afero_Exists (view host (world s)) p) as [b [e|]] eqn:Hex.
  { eexists s, _, []. rewrite app_nil_r. split; [reflexivity|].
    repeat split; try done.
    right. split; [intros (_ & _ & p' & [= <-] & Hex'); congruence|].
    split; [done|]. left. by eauto. }
  destruct b; [destruct edit|]; cbv beta iota.
  - destruct (open_Start host (world s) p) as [w' err] eqn:Hopen.
    exists (Session w' (UserConfig s) (trace s ++ [CalledOpen p err])%list),
           (match err with
            | Some _ => Exit "Can not open the editor"
            | None => Next tt
            end), [CalledOpen p err].
    split; [by destruct err|]. split; [done|]. split; [done|].
    left. split; [by eauto 10|]. by exists p, err.
  - eexists _, _, _. split; [reflexivity|]. simpl.
    split; [reflexivity|]. split; [reflexivity|].
    right. split; [by intros (_ & ? & _)|]. split; [done|]. right.
    exists p, ("Config exists at" +:+ nl +:+ p +:+ nl).
    repeat split; try done. exists ("Config exists at" +:+ nl), nl.
    by rewrite string_append_assoc.
  - eexists _, _, _. split; [reflexivity|]. simpl.
    split; [reflexivity|]. split; [reflexivity|].
    right. split; [intros (_ & _ & p' & [= <-] & Hex'); congruence|].
    split; [done|]. right.
    exists p, ("Config doesn't exist, but it is expected to be at"
               +:+ nl +:+ p +:+ nl).
    repeat split; try done.
    exists ("Config doesn't exist, but it is expected to be at" +:+ nl), nl.
    by rewrite string_append_assoc.
Qed.

(** ** The root command *)

Lemma GetConfig_Some {O : Type} (rt : Runtime O) (fs : FileSystem) (path : string) :
  toml_Unmarshal rt DefaultConfigBytes = inr DefaultDocument ->
  exists config, GetConfig rt fs path = Some config.
Proof.
  intros Hdefault. pose proof (DefaultConfig_Some rt Hdefault) as Hdef.
  unfold GetConfig.
  destruct (if String.eqb path "" then GetConfigPath rt fs else (path, None))
    as [configPath [e|]]; [done|].
  destruct (Afero_Exists fs configPath) as [b err].
  destruct (bool_decide (err ≠ None) || negb b); [done|].
  destruct (Afero_ReadFile fs configPath) as [contents [e|]]; [done|].
  destruct (ParseConfig_result rt contents) as [[conf ->]|[e ->]]; [|done].
  by exists conf.
Qed.

(** X14. [rootCmd] refuses a path it cannot use, before anything is loaded or
    started: when the existence check on the value of the config flag
    fails, the empty value included, and when the flag names a file that
    does not exist. The message names the cleaned path. A missing file is
    thus not replaced by the default config, which is what [GetConfig]
    returns for a path at which no file exists. *)
Theorem rootCmd_refuses_unusable_path {O W : Type} (rt : Runtime O)
    (host : Host W) (config : string) (s : session O W) :
  (forall exists_ e,
     Afero_Exists (view host (world s)) config = (exists_, Some e) ->
     rootCmd_Run rt host config s = (s, Exit "access to config file denied")) /\
  (config <> "" ->
   Afero_Exists (view host (world s)) config = (false, None) ->
   rootCmd_Run rt host config s =
     (s, Exit ("config at path " +:+ path_Clean host config
               +:+ " doesn't exist"))) /\
  (forall path,
     path <> "" ->
     Afero_Exists (view host (world s)) path = (false, None) ->
     GetConfig rt (view host (world s)) path = DefaultConfig rt).
Proof.
  split; [|split].
  - unfold rootCmd_Run, cmd_bind, ask, fatalIf, log_Fatal.
    intros b e ->. done.
  - unfold rootCmd_Run, cmd_bind, ask, fatalIf, log_Fatal.
    intros Hne ->. cbv beta iota.
    destruct (String.eqb_spec config "") as [->|_]; done.
  - intros path Hne Hex. unfold GetConfig.
    destruct (String.eqb_spec path "") as [->|_]; [done|].
    by rewrite Hex.
Qed.

(** X15. Provided the decoder reads the default document as what it says,
    [rootCmd] never dereferences a nil config. It either exits with the
    session untouched, or sets the global config to what [GetConfig]
    returns for the cleaned path (for the empty path when the flag is
    empty) and then starts the terminal program once, with the alternate
    screen exactly when that config asks for fullscreen; an error of the
    program is fatal. No validation takes place in between. *)
Theorem rootCmd_starts_with_loaded_config {O W : Type} (rt : Runtime O)
    (host : Host W) (config : string) (s : session O W)
    (Hdefault : toml_Unmarshal rt DefaultConfigBytes = inr DefaultDocument) :
  exists s' r new,
    rootCmd_Run rt host config s = (s', r) /\
    trace s' = (trace s ++ new)%list /\
    r <> Panic /\
    ((s' = s /\ new = [] /\ exists msg, r = Exit msg) \/
     (exists userConfig err,
        GetConfig rt (view host (world s))
          (if String.eqb config "" then "" else path_Clean host config)
          = Some userConfig /\
        UserConfig s' = Some userConfig /\
        new = [CalledProgramStart
                 (UI.Fullscreen (Config.UI userConfig)) err] /\
        r = match err with Some e => Exit e | None => Next tt end)).
Proof.
  unfold rootCmd_Run, cmd_bind, ask, fatalIf, log_Fatal, cmd_ret,
    setUserConfig, derefUserConfig, act.
  destruct (Afero_Exists (view host (world s)) config) as [b [e|]].
  { exists s, (Exit "access to config file denied"), []. rewrite app_nil_r.
    repeat split; try done. left. by eauto. }
  cbv beta iota.
  destruct (String.eqb config "") eqn:Hc; cbv beta iota zeta; simpl negb;
    cbv beta iota.
  - destruct (GetConfig_Some rt (view host (world s)) "" Hdefault) as [c Hgc].
    simpl. rewrite !Hgc. simpl.
    match goal with
    | |- context [program_Start ?h ?w ?a] =>
        destruct (program_Start h w a) as [w' err]
    end.
    eexists _, (match err with Some e => Exit e | None => Next tt end), _.
    split; [by destruct err|]. simpl. split; [reflexivity|].
    split; [by destruct err|]. right. by exists c, err.
  - destruct b; simpl.
    + destruct (GetConfig_Some rt (view host (world s))
                  (path_Clean host config) Hdefault) as [c Hgc].
      simpl. rewrite !Hgc. simpl.
      match goal with
      | |- context [program_Start ?h ?w ?a] =>
          destruct (program_Start h w a) as [w' err]
      end.
      eexists _, (match err with Some e => Exit e | None => Next tt end), _.
      split; [by destruct err|]. simpl. split; [reflexivity|].
      split; [by destruct err|]. right. by exists c, err.
    + eexists s, _, []. rewrite app_nil_r. split; [reflexivity|].
      repeat split; try done. left. by eauto.
Qed.

(** On the host in memory, with an empty config file at the default
    location: the program is started with a config that [ValidateConfig]
    rejects. *)
Lemma rootCmd_starts_with_loaded_config_witness :
  exists (s' : session unit Mem.t) (userConfig : Config.t unit),
    rootCmd_Run Demo.rt Mem.host ""
      (Mem.start
         (Mem.mk {[ "/home/u/.config/mangal/config.toml" := "" ]} ∅ []))
      = (s', Next tt) /\
    UserConfig s' = Some userConfig /\
    trace s' = [CalledProgramStart false None] /\
    ValidateConfig Demo.rt userConfig = Returns (Some "no manga sources listed").
Proof.
  set (s := Mem.start
              (Mem.mk {[ "/home/u/.config/mangal/config.toml" := "" ]} ∅ [])).
  destruct (rootCmd_starts_with_loaded_config Demo.rt Mem.host "" s)
    as (s' & r & new & Hrun & Htrace & _ & Hcases).
  { vm_compute. reflexivity. }
  destruct Hcases as [(-> & _ & msg & ->) | (c & err & Hgc & Hu & -> & ->)].
  { vm_compute in Hrun. discriminate Hrun. }
  vm_compute in Hgc. injection Hgc as <-.
  vm_compute in Hrun. destruct err as [e|]; [discriminate Hrun|].
  injection Hrun as <-.
  eexists _, _. split; [vm_compute; reflexivity|].
  repeat split; vm_compute; reflexivity.
Defined.

(** ** The command [cleanup] *)

(** A removal of a temp entry of the application: an entry of the listing
    of the temp directory whose name starts with the application name. *)
Definition ownRemoval {O W : Type} (rt : Runtime O) (host : Host W)
    (tempDir : string) (tempFiles : list FileInfo.t) (e : effect) : Prop :=
  exists tempFile err,
    tempFile ∈ tempFiles /\
    ownTempName rt host (FileInfo.Name tempFile) = true /\
    e = CalledRemoveAll (filepath_Join rt [tempDir; FileInfo.Name tempFile]) err.

(** A removal of the cache directory of the application, under the
    per-user cache directory. *)
Definition cacheRemoval {O W : Type} (rt : Runtime O) (host : Host W)
    (e : effect) : Prop :=
  exists w cacheDir err,
    os_UserCacheDir host w = (cacheDir, None) /\
    e = CalledRemoveAll (filepath_Join rt [cacheDir; AppName host]) err.

Lemma wrap_add_l (bits a b : Z) :
  (0 < bits)%Z -> wrap bits (wrap bits a + b) = wrap bits (a + b).
Proof.
  intros Hbits. unfold wrap.
  assert (Hm : (2 ^ bits <> 0)%Z) by (apply Z.pow_nonzero; lia).
  f_equal.
  replace ((a + 2 ^ (bits - 1)) mod 2 ^ bits - 2 ^ (bits - 1) + b
           + 2 ^ (bits - 1))%Z
    with ((a + 2 ^ (bits - 1)) mod 2 ^ bits + b)%Z by lia.
  rewrite Z.add_mod_idemp_l by done. f_equal. lia.
Qed.

Lemma wrap_small (bits z : Z) :
  (0 < bits)%Z ->
  (- 2 ^ (bits - 1) <= z < 2 ^ (bits - 1))%Z ->
  wrap bits z = z.
Proof.
  intros Hbits Hz. unfold wrap.
  assert (H2 : (2 ^ bits = 2 * 2 ^ (bits - 1))%Z).
  { rewrite <- Z.pow_succ_r by lia. f_equal. lia. }
  rewrite Z.mod_small by lia. lia.
Qed.

Section CleanupFacts.
Context {O W : Type}.
Variable rt : Runtime O.
Variable host : Host W.

(** One turn of the loop over the temp files: no effect, or one removal
    of the entry, which counts when it succeeds. *)
Lemma cleanTempFile_spec (tempDir : string) (counter bytes : Z)
    (tempFile : FileInfo.t) (s : session O W) :
  exists s' counter' bytes' new,
    cleanTempFile rt host tempDir (counter, bytes) tempFile s
      = (s', Next (counter', bytes')) /\
    trace s' = (trace s ++ new)%list /\
    UserConfig s' = UserConfig s /\
    ((new = [] /\ counter' = counter) \/
     (exists err,
        ownTempName rt host (FileInfo.Name tempFile) = true /\
        new = [CalledRemoveAll
                 (filepath_Join rt [tempDir; FileInfo.Name tempFile]) err] /\
        counter' = match err with
                   | None => wrap (intSize host) (counter + 1)
                   | Some _ => counter
                   end)).
Proof.
  unfold cleanTempFile.
  destruct (ownTempName rt host (FileInfo.Name tempFile)) eqn:Hown.
  2: { exists s, counter, bytes, []. rewrite app_nil_r.
       repeat split; try done. by left. }
  unfold cmd_bind, ask, act, cmd_ret.
  destruct (FileInfo.IsDir tempFile);
    [destruct (DirSize host (world s) _) as [b [e|]]|]; simpl;
    (match goal with
     | |- context [Afero_RemoveAll ?h ?w ?q] =>
         destruct (Afero_RemoveAll h w q) as [w' [e'|]]
     end;
     simpl; eexists _, _, _, _; (split; [reflexivity|]); simpl;
     (split; [reflexivity|]); (split; [reflexivity|]);
     right; eexists; done).
Qed.

Lemma forRange_cons {A B : Type} (body : B -> A -> Cmd O W B) (x : A)
    (rest : list A) (acc : B) (s : session O W) :
  forRange body (x :: rest) acc s =
  let '(s1, r) := body acc x s in
  match r with
  | Next acc1 => forRange body rest acc1 s1
  | Exit msg => (s1, Exit msg)
  | Panic => (s1, Panic)
  end.
Proof. reflexivity. Qed.

(** The loop over the temp files. *)
Lemma forRange_cleanTempFile (tempDir : string) (tempFiles : list FileInfo.t)
    (counter bytes : Z) (s : session O W) :
  exists s' counter' bytes' new,
    forRange (cleanTempFile rt host tempDir) tempFiles (counter, bytes) s
      = (s', Next (counter', bytes')) /\
    trace s' = (trace s ++ new)%list /\
    UserConfig s' = UserConfig s /\
    Forall (ownRemoval rt host tempDir tempFiles) new /\
    ((0 < intSize host)%Z ->
     wrap (intSize host) counter' =
       wrap (intSize host)
         (counter + Z.of_nat (length (List.filter removedOk new))) /\
     (wrap (intSize host) counter = counter ->
      wrap (intSize host) counter' = counter')).
Proof.
  revert counter bytes s.
  induction tempFiles as [|tempFile rest IH]; intros counter bytes s.
  - exists s, counter, bytes, []. rewrite app_nil_r. simpl.
    rewrite Z.add_0_r. repeat split; try done.
  - rewrite forRange_cons.
    destruct (cleanTempFile_spec tempDir counter bytes tempFile s)
      as (s1 & c1 & b1 & new1 & Hrun1 & Ht1 & Hu1 & Hcase).
    rewrite Hrun1.
    destruct (IH c1 b1 s1) as (s2 & c2 & b2 & new2 & Hrun2 & Ht2 & Hu2 & Hall & Hcount).
    exists s2, c2, b2, (new1 ++ new2)%list.
    split; [exact Hrun2|].
    split; [by rewrite Ht2, Ht1, app_assoc|].
    split; [congruence|].
    assert (Hall' : Forall (ownRemoval rt host tempDir (tempFile :: rest)) new2).
    { eapply Forall_impl; [exact Hall|].
      intros e (f & err & Hin & Hown & ->). exists f, err.
      split; [by right | done]. }
    destruct Hcase as [[-> ->] | (err & Hown & -> & ->)].
    + split; [done|]. exact Hcount.
    + split.
      { constructor; [|done]. exists tempFile, err. split; [by left | done]. }
      intros Hbits. destruct (Hcount Hbits) as [Hc Hrange].
      destruct err as [e|]; simpl.
      * split; [done|]. done.
      * split.
        -- rewrite Hc, wrap_add_l by done. f_equal. lia.
        -- intros _. apply Hrange.
           rewrite <- (Z.add_0_r (wrap (intSize host) (counter + 1))) at 1.
           rewrite wrap_add_l by done. by rewrite Z.add_0_r.
Qed.

Lemma cleanTemp_spec (s : session O W) :
  exists s' counter bytes new,
    cleanTemp rt host (0%Z, 0%Z) s = (s', Next (counter, bytes)) /\
    trace s' = (trace s ++ new)%list /\
    UserConfig s' = UserConfig s /\
    Forall (ownRemoval rt host (os_TempDir host (world s))
              (fst (Afero_ReadDir host (world s) (os_TempDir host (world s)))))
           new /\
    ((0 < intSize host)%Z ->
     counter = wrap (intSize host)
                 (Z.of_nat (length (List.filter removedOk new)))).
Proof.
  unfold cleanTemp, cmd_bind, ask. simpl.
  assert (H0 : (0 < intSize host)%Z -> wrap (intSize host) 0 = 0%Z).
  { intros Hbits. apply wrap_small; [done|].
    assert (0 < 2 ^ (intSize host - 1))%Z by (apply Z.pow_pos_nonneg; lia).
    lia. }
  destruct (Afero_ReadDir host (world s) (os_TempDir host (world s)))
    as [tempFiles [e|]]; simpl.
  - exists s, 0%Z, 0%Z, []. rewrite app_nil_r. repeat split; try done.
    intros Hbits. simpl. symmetry. by apply H0.
  - destruct (forRange_cleanTempFile (os_TempDir host (world s)) tempFiles 0 0 s)
      as (s' & c & b & new & Hrun & Ht & Hu & Hall & Hcount).
    exists s', c, b, new. repeat split; try done.
    intros Hbits. destruct (Hcount Hbits) as [Hc Hrange].
    rewrite <- (Hrange (H0 Hbits)). by rewrite Hc.
Qed.

Lemma cleanCache_spec (acc : Z * Z) (s : session O W) :
  exists s' acc' new,
    cleanCache rt host acc s = (s', Next acc') /\
    trace s' = (trace s ++ new)%list /\
    UserConfig s' = UserConfig s /\
    Forall (cacheRemoval rt host) new.
Proof.
  destruct acc as [counter bytes].
  unfold cleanCache, cmd_bind, ask, act, cmd_ret. simpl.
  destruct (os_UserCacheDir host (world s)) as [cacheDir [e|]] eqn:Hcache; simpl.
  { exists s, (counter, bytes), []. rewrite app_nil_r. by repeat split. }
  destruct (Afero_Exists (view host (world s)) _) as [b err]. simpl.
  destruct (bool_decide (err = None) && b); simpl.
  2: { exists s, (counter, bytes), []. rewrite app_nil_r. by repeat split. }
  destruct (Afero_ReadDir host (world s) _) as [files rerr]. simpl.
  destruct (Afero_RemoveAll host (world s) _) as [w' err'] eqn:Hrm. simpl.
  eexists _, _, _. split; [reflexivity|]. simpl.
  split; [reflexivity|]. split; [reflexivity|].
  constructor; [|done]. by exists (world s), cacheDir, err'.
Qed.

End CleanupFacts.

(** X16. [cleanupCmd] never exits through [log.Fatal]: whatever fails on the
    host, it ends normally, and the last thing it does is print its
    report. Before that it does nothing but remove: each call is a
    [RemoveAll] of an entry of the temp directory, as listed at the start,
    whose name starts with the application name (as it is or in lower
    case), or of the cache directory of the application. No other path
    is removed, and nothing is created or written. *)
Theorem cleanupCmd_removes_own_files_only {O W : Type} (rt : Runtime O)
    (host : Host W) (s : session O W) :
  exists s' removals text,
    cleanupCmd_Run rt host s = (s', Next tt) /\
    trace s' = (trace s ++ removals ++ [Printed text])%list /\
    UserConfig s' = UserConfig s /\
    Forall
      (fun e =>
         ownRemoval rt host (os_TempDir host (world s))
           (fst (Afero_ReadDir host (world s) (os_TempDir host (world s)))) e \/
         cacheRemoval rt host e)
      removals.
Proof.
  unfold cleanupCmd_Run, cmd_bind.
  destruct (cleanTemp_spec rt host s) as (s1 & c1 & b1 & new1 & -> & Ht1 & Hu1 & Hall1 & _).
  destruct (cleanCache_spec rt host (c1, b1) s1)
    as (s2 & [c2 b2] & new2 & -> & Ht2 & Hu2 & Hall2).
  unfold fmt_Print.
  eexists _, (new1 ++ new2)%list, _. split; [reflexivity|]. simpl.
  split; [by rewrite Ht2, Ht1, <- !app_assoc|].
  split; [congruence|].
  apply Forall_app. split.
  - eapply Forall_impl; [exact Hall1|]. intros e He. by left.
  - eapply Forall_impl; [exact Hall2|]. intros e He. by right.
Qed.

(** X17. The counter of [cleanupCmd] after the temp files: it is the number of
    removals that succeeded, as an [int] (wrapped around at its width);
    an entry whose removal fails is not counted. *)
Theorem cleanTemp_counts_successful_removals {O W : Type} (rt : Runtime O)
    (host : Host W) (s : session O W)
    (Hbits : (0 < intSize host)%Z) :
  exists s' counter bytes new,
    cleanTemp rt host (0%Z, 0%Z) s = (s', Next (counter, bytes)) /\
    trace s' = (trace s ++ new)%list /\
    let removed := Z.of_nat (length (List.filter removedOk new)) in
    counter = wrap (intSize host) removed /\
    ((removed < 2 ^ (intSize host - 1))%Z -> counter = removed).
Proof.
  destruct (cleanTemp_spec rt host s)
    as (s' & c & b & new & Hrun & Ht & _ & _ & Hc).
  exists s', c, b, new. split; [done|]. split; [done|].
  split; [by apply Hc|].
  intros Hsmall. rewrite (Hc Hbits). apply wrap_small; [done|].
  assert (0 < 2 ^ (intSize host - 1))%Z by (apply Z.pow_pos_nonneg; lia).
  lia.
Qed.

(** On the host in memory with four temp entries: the foreign one is not
    touched, the removal of the busy one fails, two are counted. *)
Lemma cleanTemp_counts_successful_removals_witness :
  exists (s' : session unit Mem.t) (bytes : Z),
    cleanTemp Demo.rt Mem.host (0%Z, 0%Z) (Mem.start Mem.littered)
      = (s', Next (2%Z, bytes)) /\
    trace s' =
      [CalledRemoveAll "/tmp/mangal-1.jpg" None;
       CalledRemoveAll "/tmp/Mangal_chapter" None;
       CalledRemoveAll "/tmp/mangal-busy" (Some "operation not permitted")].
Proof.
  destruct (cleanTemp_counts_successful_removals Demo.rt Mem.host
              (Mem.start Mem.littered))
    as (s' & c & b & new & Hrun & Ht & Hc & _); [done|].
  vm_compute in Hrun. injection Hrun as <- <- <-.
  eexists _, _. split; vm_compute; reflexivity.
Defined.

(** X18. The entries of the cache directory are counted when the directory is
    listed, before it is removed and whatever the removal returns: the
    error of that [RemoveAll] is dropped, so the counter goes up by the
    number of entries even when nothing was removed. *)
Theorem cleanCache_counts_before_removal {O W : Type} (rt : Runtime O)
    (host : Host W) (counter bytes : Z) (s : session O W)
    (cacheDir : string) (files : list FileInfo.t)
    (Hdir : os_UserCacheDir host (world s) = (cacheDir, None))
    (Hexists : Afero_Exists (view host (world s))
                 (filepath_Join rt [cacheDir; AppName host]) = (true, None))
    (Hlist : Afero_ReadDir host (world s)
               (filepath_Join rt [cacheDir; AppName host]) = (files, None)) :
  exists s' bytes' err,
    cleanCache rt host (counter, bytes) s =
      (s', Next (wrap (intSize host) (counter + Z.of_nat (length files)),
                 bytes')) /\
    Afero_RemoveAll host (world s) (filepath_Join rt [cacheDir; AppName host])
      = (world s', err) /\
    trace s' =
      (trace s ++
       [CalledRemoveAll (filepath_Join rt [cacheDir; AppName host]) err])%list.
Proof.
  unfold cleanCache, cmd_bind, ask, act, cmd_ret. simpl.
  rewrite Hdir. simpl. rewrite Hexists. simpl. rewrite Hlist. simpl.
  destruct (Afero_RemoveAll host (world s) _) as [w' err] eqn:Hrm. simpl.
  by eexists _, _, err.
Qed.

(** On the host in memory, with the cache directory locked: its two
    entries are counted although the removal fails and the directory is
    still there. *)
Lemma cleanCache_counts_before_removal_witness :
  exists (s' : session unit Mem.t) (bytes : Z),
    let locked :=
      Mem.mk (Mem.files Mem.littered) (Mem.dirs Mem.littered)
             ["/home/u/.cache/Mangal"] in
    cleanCache Demo.rt Mem.host (0%Z, 0%Z) (Mem.start locked)
      = (s', Next (2%Z, bytes)) /\
    trace s' = [CalledRemoveAll "/home/u/.cache/Mangal"
                  (Some "operation not permitted")] /\
    world s' = locked.
Proof.
  set (locked := Mem.mk (Mem.files Mem.littered) (Mem.dirs Mem.littered)
                        ["/home/u/.cache/Mangal"]).
  destruct (cleanCache_counts_before_removal Demo.rt Mem.host 0 0
              (Mem.start locked) "/home/u/.cache"
              [FileInfo.mk "a" false 1; FileInfo.mk "b" false 2])
    as (s' & b & err & Hrun & Hrm & Ht);
    [reflexivity | vm_compute; reflexivity | vm_compute; reflexivity |].
  vm_compute in Hrun. injection Hrun as <- <-.
  eexists _, _. split; [vm_compute; reflexivity|].
  split; vm_compute; reflexivity.
Defined.
